(** * graph-sql: an SQL store for graphs

    A shallow embedding of [store.go] and [config.go].  The adapter keeps no
    state of its own: every method is one statement against the database
    handle it was given.  The database is therefore part of the model: a
    catalog of tables, each a list of rows in insertion order, with the
    statements the adapter issues (CREATE/DROP TABLE, INSERT, DELETE, UPDATE,
    SELECT with equality predicates, count) given their SQL meaning.  A
    value is stored as it is passed: the conversions an engine makes between
    storage classes are not modelled.  A statement fails when its table or
    one of its columns does not exist, and CREATE TABLE when the table does.

    [encoding/json] is an interface ([JSON]): the adapter only moves its
    bytes around.  The vertex hash type is an interface too ([SQLKey]): a
    comparable type whose values the driver stores as they are. *)

From Stdlib Require Import ZArith Ascii String DecimalString.
From stdpp Require Import gmap strings list fin_maps.

Local Open Scope Z_scope.
Local Open Scope string_scope.
Local Open Scope list_scope.

(** ** Go errors *)

(** The error values this package can see.  [Errorf msg e] is
    [fmt.Errorf(msg + ": %w", e)]: a message that wraps [e]. *)
Inductive error : Type :=
| ErrNoRows                       (* sql.ErrNoRows *)
| ErrEdgeNotFound                 (* graph.ErrEdgeNotFound *)
| DriverError (msg : string)      (* raised by the database engine or driver *)
| JSONError (msg : string)        (* raised by encoding/json *)
| Errorf (msg : string) (wrapped : error).

#[global] Instance error_eq_dec : EqDecision error.
Proof. solve_decision. Defined.


(** [errors.Is]: [target] is [e] or is somewhere down its chain. *)
Fixpoint errors_Is (e target : error) : bool :=
  bool_decide (e = target) ||
  match e with
  | Errorf _ w => errors_Is w target
  | _ => false
  end.

(** [err.Error()]. *)
Fixpoint error_Error (e : error) : string :=
  match e with
  | ErrNoRows => "sql: no rows in result set"
  | ErrEdgeNotFound => "edge not found"
  | DriverError msg => msg
  | JSONError msg => msg
  | Errorf msg w => msg +:+ ": " +:+ error_Error w
  end.

(** A Go result pair [(A, error)] of which exactly one side is meaningful. *)
Inductive result (A : Type) : Type :=
| Ok (a : A)
| Err (e : error).
Arguments Ok {A} a.
Arguments Err {A} e.

(** ** The database *)

(** A value the driver stores ([driver.Value], NULL apart). *)
Inductive sqlval : Type :=
| SInt (z : Z)
| SText (s : string)
| SBlob (b : string).

#[global] Instance sqlval_eq_dec : EqDecision sqlval.
Proof. solve_decision. Defined.

(** A cell of a row or a statement argument: [None] is NULL. *)
Abbreviation cell := (option sqlval).

(** A row maps a column to its value; a column that is NULL has no entry. *)
Abbreviation row := (gmap string sqlval).

(** A table: the declared columns with their types, and the rows in
    insertion order. *)
Record table : Type := Table {
  columns : list (string * string);
  rows : list row;
}.

#[global] Instance table_eq_dec : EqDecision table.
Proof. solve_decision. Defined.

(** The catalog: table name to table. *)
Abbreviation database := (gmap string table).

(** A predicate of a WHERE clause. *)
Inductive cond : Type :=
| CmpEq (col : string) (v : cell)   (* col = ? *)
| IsNull (col : string).            (* col IS NULL *)

(** A column expression of a SELECT. *)
Inductive expr : Type :=
| Col (col : string)                (* col *)
| Count (col : string).             (* count(col) *)

(** The statements the adapter sends. *)
Inductive stmt : Type :=
| CreateTable (name : string) (cols : list (string * string))
| DropTable (name : string)
| InsertInto (name : string) (cols : list string) (vals : list cell)
| DeleteFrom (name : string) (where_ : list cond)
| UpdateSet (name : string) (sets : list (string * cell)) (where_ : list cond).

Record query : Type := Select {
  sel_exprs : list expr;
  sel_from : string;
  sel_where : list cond;
}.

(** What differs between engines and matters here: the value stored in a
    column that an INSERT leaves out, from the column's name and declared
    type and the rows already in the table. *)
Class Engine : Type := {
  default_cell : string -> string -> list row -> cell;
}.

(** SQLite reads [BIGINT UNSIGNED AUTO_INCREMENT] as a type name it does not
    know: the column is no alias of the rowid, and a column left out is NULL. *)
Definition sqlite : Engine := {| default_cell := fun _ _ _ => None |}.

(** The integer in column [col] of a row, 0 when there is none. *)
Definition int_cell (col : string) (r : row) : Z :=
  match r !! col with
  | Some (SInt z) => z
  | _ => 0
  end.

(** MySQL numbers an AUTO_INCREMENT key past the largest one in the table;
    any other column left out is NULL. *)
Definition mysql : Engine :=
  {| default_cell := fun col ty rs =>
       if bool_decide (ty = "BIGINT UNSIGNED AUTO_INCREMENT PRIMARY KEY")
       then Some (SInt (foldr Z.max 0 (map (int_cell col) rs) + 1))
       else None |}.

(** SQL comparison: NULL on either side is not true. *)
Definition cond_holds (r : row) (c : cond) : bool :=
  match c with
  | CmpEq col v =>
      match r !! col, v with
      | Some a, Some b => bool_decide (a = b)
      | _, _ => false
      end
  | IsNull col =>
      match r !! col with
      | None => true
      | Some _ => false
      end
  end.

Definition matches (where_ : list cond) (r : row) : bool :=
  forallb (cond_holds r) where_.

Definition cond_column (c : cond) : string :=
  match c with
  | CmpEq col _ => col
  | IsNull col => col
  end.

Definition expr_column (e : expr) : string :=
  match e with
  | Col col => col
  | Count col => col
  end.

Definition declared (t : table) (col : string) : bool :=
  bool_decide (col ∈ (columns t).*1).

(** The first of [cols] that [t] does not declare, as the engine reports it. *)
Fixpoint check_columns (t : table) (cols : list string) : option error :=
  match cols with
  | [] => None
  | c :: cols =>
      if declared t c then check_columns t cols
      else Some (DriverError ("no such column: " +:+ c))
  end.

Definition no_such_table (name : string) : error :=
  DriverError ("no such table: " +:+ name).

(** [col := v] on a row; NULL removes the entry. *)
Definition set_cell (r : row) (cv : string * cell) : row :=
  match cv.2 with
  | Some v => <[cv.1 := v]> r
  | None => delete cv.1 r
  end.

Definition set_cells (r : row) (cvs : list (string * cell)) : row :=
  foldl set_cell r cvs.

(** The row an INSERT builds: every declared column gets its default, then
    the listed columns get the listed values. *)
Definition new_row `{Engine} (t : table) (cols : list string) (vals : list cell) : row :=
  set_cells
    (set_cells ∅ (map (fun d => (d.1, default_cell d.1 d.2 (rows t))) (columns t)))
    (zip cols vals).

(** [db.Exec]: run a statement that returns no rows. *)
Definition db_Exec `{Engine} (db : database) (s : stmt) : database * option error :=
  match s with
  | CreateTable name cols =>
      match db !! name with
      | Some _ => (db, Some (DriverError ("table " +:+ name +:+ " already exists")))
      | None => (<[name := Table cols []]> db, None)
      end
  | DropTable name =>
      match db !! name with
      | None => (db, Some (no_such_table name))
      | Some _ => (delete name db, None)
      end
  | InsertInto name cols vals =>
      match db !! name with
      | None => (db, Some (no_such_table name))
      | Some t =>
          if bool_decide (length cols = length vals) then
            match check_columns t cols with
            | Some e => (db, Some e)
            | None =>
                (<[name := Table (columns t) (rows t ++ [new_row t cols vals])]> db, None)
            end
          else (db, Some (DriverError "values for columns do not match"))
      end
  | DeleteFrom name where_ =>
      match db !! name with
      | None => (db, Some (no_such_table name))
      | Some t =>
          match check_columns t (map cond_column where_) with
          | Some e => (db, Some e)
          | None =>
              (<[name := Table (columns t)
                                (filter (fun r => matches where_ r = false) (rows t))]> db,
               None)
          end
      end
  | UpdateSet name sets where_ =>
      match db !! name with
      | None => (db, Some (no_such_table name))
      | Some t =>
          match check_columns t (map fst sets ++ map cond_column where_) with
          | Some e => (db, Some e)
          | None =>
              (<[name := Table (columns t)
                                (map (fun r => if matches where_ r then set_cells r sets else r)
                                     (rows t))]> db,
               None)
          end
      end
  end.

Definition is_count (e : expr) : bool :=
  match e with
  | Count _ => true
  | Col _ => false
  end.

(** One output cell of an aggregate query over the selected rows. *)
Definition aggregate (rs : list row) (e : expr) : cell :=
  match e with
  | Count col => Some (SInt (Z.of_nat (length (filter (fun r => is_Some (r !! col)) rs))))
  | Col col => head rs ≫= (.!! col)
  end.

(** [db.Query]: the result rows of a SELECT, in table order.  A SELECT with
    an aggregate yields one row. *)
Definition db_Query (db : database) (q : query) : result (list (list cell)) :=
  match db !! sel_from q with
  | None => Err (no_such_table (sel_from q))
  | Some t =>
      match check_columns t (map expr_column (sel_exprs q) ++ map cond_column (sel_where q)) with
      | Some e => Err e
      | None =>
          let selected := filter (fun r => matches (sel_where q) r = true) (rows t) in
          if existsb is_count (sel_exprs q)
          then Ok [map (aggregate selected) (sel_exprs q)]
          else Ok (map (fun r => map (fun e => r !! expr_column e) (sel_exprs q)) selected)
      end
  end.

(** [db.QueryRow]: the first result row; [Row.Scan] reports an empty result
    as [sql.ErrNoRows]. *)
Definition db_QueryRow (db : database) (q : query) : result (list cell) :=
  match db_Query db q with
  | Err e => Err e
  | Ok [] => Err ErrNoRows
  | Ok (r :: _) => Ok r
  end.

(** ** Scanning result cells into Go variables ([Rows.Scan]) *)

(** [strconv.ParseInt(s, 10, 64)]: decimal digits after an optional sign,
    within 64 bits. *)
Definition parse_int (s : string) : option Z :=
  let in_range z := if bool_decide (- 2 ^ 63 <= z < 2 ^ 63) then Some z else None in
  match s with
  | String "+" digits => (Z.of_uint <$> NilZero.uint_of_string digits) ≫= in_range
  | _ => (Z.of_int <$> NilZero.int_of_string s) ≫= in_range
  end.

(** [strconv.FormatInt(z, 10)]. *)
Definition format_int (z : Z) : string :=
  NilZero.string_of_int (Z.to_int z).

(** Into [*int].  Go's [int] is read as an integer: the adapter stores and
    returns weights and counts and never computes with them. *)
Definition scan_int (c : cell) : result Z :=
  match c with
  | None => Err (DriverError "converting NULL to int is unsupported")
  | Some (SInt z) => Ok z
  | Some (SText s) | Some (SBlob s) =>
      match parse_int s with
      | Some z => Ok z
      | None => Err (DriverError "converting driver.Value type to a int: invalid syntax")
      end
  end.

(** Into [*[]byte]: never fails; NULL leaves the nil slice. *)
Definition scan_bytes (c : cell) : string :=
  match c with
  | None => ""
  | Some (SInt z) => format_int z
  | Some (SText s) => s
  | Some (SBlob b) => b
  end.

(** Into [*any]: the driver's value as it is. *)
Definition scan_any (c : cell) : cell := c.

(** The [i]-th cell of a result row. *)
Definition cell_at (r : list cell) (i : nat) : cell := mjoin (r !! i).

(** ** The interfaces the adapter is generic over *)

(** The zero value of a Go type ([var v A]). *)
Class Zero (A : Type) : Type := zero : A.

(** [encoding/json] at one Go type.  [marshal] is [json.Marshal]: the bytes,
    or the message of the error.  [unmarshal data] is [json.Unmarshal(data, &v)]
    on a zero-valued [v]: what [v] holds afterwards, and the message of the
    error if there is one. *)
Class JSON (A : Type) : Type := {
  marshal : A -> string + string;
  unmarshal : string -> A * option string;
}.

Definition json_Marshal {A} `{JSON A} (v : A) : result string :=
  match marshal v with
  | inl data => Ok data
  | inr msg => Err (JSONError msg)
  end.

Definition json_Unmarshal {A} `{JSON A} (data : string) : A * option error :=
  let (v, msg) := unmarshal data in (v, JSONError <$> msg).

(** A vertex hash type [K]: comparable, passed to the driver as a non-NULL
    value and scanned back from a cell. *)
Class SQLKey (K : Type) : Type := {
  key_value : K -> sqlval;
  key_scan : cell -> result K;
  key_value_inj : forall a b : K, key_value a = key_value b -> a = b;
}.

(** ** The types of the graph library that the store's methods mention *)

Module graph.

(** [map[string]string]; [None] is the nil map. *)
Abbreviation Attributes := (option (gmap string string)).

Module VertexProperties.
Record t : Type := Make {
  Attributes : Attributes;
  Weight : Z;
}.
End VertexProperties.

Module EdgeProperties.
Record t : Type := Make {
  Attributes : Attributes;
  Weight : Z;
  Data : cell;   (* any: what the driver can store; nil is NULL *)
}.
End EdgeProperties.

Record Edge (K : Type) : Type := MakeEdge {
  Source : K;
  Target : K;
  Properties : EdgeProperties.t;
}.
Arguments MakeEdge {K} _ _ _.
Arguments Source {K} _.
Arguments Target {K} _.
Arguments Properties {K} _.

End graph.

#[global] Instance Attributes_zero : Zero graph.Attributes := None.

(** [encoding/json] at [map[string]string], where [json.Marshal] has no
    error to return: every map of strings is encodable. *)
Class AttributesJSON : Type := {
  marshal_attributes : graph.Attributes -> string;
  unmarshal_attributes : string -> graph.Attributes * option string;
}.

#[global] Instance JSON_Attributes `{AttributesJSON} : JSON graph.Attributes :=
  {| marshal := fun m => inl (marshal_attributes m);
     unmarshal := unmarshal_attributes |}.

#[global] Instance VertexProperties_zero : Zero graph.VertexProperties.t :=
  graph.VertexProperties.Make zero 0.

#[global] Instance EdgeProperties_zero : Zero graph.EdgeProperties.t :=
  graph.EdgeProperties.Make zero 0 None.

(** ** config.go *)

Record Config : Type := MakeConfig {
  VerticesTable : string;
  EdgesTable : string;
  VertexHashType : string;
  VertexValueType : string;
}.

Definition DefaultConfig : Config :=
  {| VerticesTable := "vertices";
     EdgesTable := "edges";
     VertexHashType := "TEXT";
     VertexValueType := "JSON" |}.

(** The statement of the [createVerticesTable] template. *)
Definition createVerticesTableSQL (c : Config) : stmt :=
  CreateTable (VerticesTable c)
    [ ("id", "BIGINT UNSIGNED AUTO_INCREMENT PRIMARY KEY");
      ("hash", VertexHashType c);
      ("value", VertexValueType c);
      ("weight", "INT");
      ("attributes", "JSON") ].

(** The statement of the [createEdgesTable] template. *)
Definition createEdgesTableSQL (c : Config) : stmt :=
  CreateTable (EdgesTable c)
    [ ("id", "BIGINT UNSIGNED AUTO_INCREMENT PRIMARY KEY");
      ("source_hash", VertexHashType c);
      ("target_hash", VertexHashType c);
      ("weight", "INT");
      ("attributes", "JSON");
      ("data", "BLOB") ].

Definition dropVerticesTableSQL (c : Config) : stmt :=
  DropTable (VerticesTable c).

Definition dropEdgesTableSQL (c : Config) : stmt :=
  DropTable (EdgesTable c).

(** ** The query builder (squirrel) *)

(** [sq.Eq{col: v}]: [col = ?], or [col IS NULL] for a nil value. *)
Definition sq_Eq (col : string) (v : cell) : cond :=
  match v with
  | Some _ => CmpEq col v
  | None => IsNull col
  end.

(** ** store.go *)

(** The store: the database handle (here the database's state, threaded
    through the methods) and the configuration. *)
Record Store : Type := New {
  db : database;
  config : Config;
}.

Definition with_db (s : Store) (d : database) : Store :=
  {| db := d; config := config s |}.

Section Store.
Context `{Engine}.
Context {K T : Type} `{SQLKey K} `{Zero T} `{JSON T} `{AttributesJSON}.

Definition SetupTables (s : Store) : Store * option error :=
  let (d, err) := db_Exec (db s) (createVerticesTableSQL (config s)) in
  match err with
  | Some e =>
      (with_db s d,
       Some (Errorf ("failed to set up " +:+ VerticesTable (config s) +:+ " table") e))
  | None =>
      let (d, err) := db_Exec d (createEdgesTableSQL (config s)) in
      match err with
      | Some e =>
          (with_db s d,
           Some (Errorf ("failed to set up " +:+ EdgesTable (config s) +:+ " table") e))
      | None => (with_db s d, None)
      end
  end.

Definition DestroyTables (s : Store) : Store * option error :=
  let (d, err) := db_Exec (db s) (dropEdgesTableSQL (config s)) in
  match err with
  | Some e =>
      (with_db s d,
       Some (Errorf ("failed to set up " +:+ EdgesTable (config s) +:+ " table") e))
  | None =>
      let (d, err) := db_Exec d (dropVerticesTableSQL (config s)) in
      match err with
      | Some e =>
          (with_db s d,
           Some (Errorf ("failed to set up " +:+ VerticesTable (config s) +:+ " table") e))
      | None => (with_db s d, None)
      end
  end.

Definition AddVertex (s : Store) (hash : K) (value : T)
    (properties : graph.VertexProperties.t) : Store * option error :=
  match json_Marshal value with
  | Err err => (s, Some err)
  | Ok valueBytes =>
      match json_Marshal (graph.VertexProperties.Attributes properties) with
      | Err err => (s, Some err)
      | Ok attributeBytes =>
          let (d, err) :=
            db_Exec (db s)
              (InsertInto (VerticesTable (config s))
                 ["hash"; "value"; "weight"; "attributes"]
                 [Some (key_value hash); Some (SBlob valueBytes);
                  Some (SInt (graph.VertexProperties.Weight properties));
                  Some (SBlob attributeBytes)]) in
          (with_db s d, err)
      end
  end.

Definition RemoveVertex (s : Store) (hash : K) : Store * option error :=
  let (d, err) :=
    db_Exec (db s)
      (DeleteFrom (VerticesTable (config s)) [sq_Eq "hash" (Some (key_value hash))]) in
  (with_db s d, err).

Definition Vertex (s : Store) (hash : K) : T * graph.VertexProperties.t * option error :=
  let value : T := zero in
  let properties : graph.VertexProperties.t := zero in
  match
    db_QueryRow (db s)
      (Select [Col "value"; Col "weight"; Col "attributes"]
         (VerticesTable (config s))
         [sq_Eq "hash" (Some (key_value hash))])
  with
  | Err err => (value, properties, Some (Errorf "failed to query vertex" err))
  | Ok r =>
      (* Scan(&valueBytes, &properties.Weight, &attributesBytes) *)
      let valueBytes := scan_bytes (cell_at r 0) in
      match scan_int (cell_at r 1) with
      | Err err => (value, properties, Some (Errorf "failed to query vertex" err))
      | Ok weight =>
          let attributesBytes := scan_bytes (cell_at r 2) in
          let properties := graph.VertexProperties.Make None weight in
          let (value, err) := json_Unmarshal valueBytes in
          match err with
          | Some err => (value, properties, Some (Errorf "failed to unmarshal value" err))
          | None =>
              let (attributes, err) := json_Unmarshal attributesBytes in
              let properties := graph.VertexProperties.Make attributes weight in
              match err with
              | Some err =>
                  (value, properties, Some (Errorf "failed to unmarshal attributes" err))
              | None => (value, properties, None)
              end
          end
      end
  end.

(** The loop of [ListVertices] over the result rows. *)
Fixpoint ListVertices_rows (rs : list (list cell)) (hashes : list K)
    : list K * option error :=
  match rs with
  | [] => (hashes, None)
  | r :: rs =>
      match key_scan (cell_at r 0) with
      | Err err => ([], Some (Errorf "failed to scan row" err))
      | Ok hash => ListVertices_rows rs (hashes ++ [hash])
      end
  end.

Definition ListVertices (s : Store) : list K * option error :=
  match db_Query (db s) (Select [Col "hash"] (VerticesTable (config s)) []) with
  | Err err => ([], Some (Errorf "failed to query vertices" err))
  | Ok rs => ListVertices_rows rs []
  end.

Definition VertexCount (s : Store) : Z * option error :=
  match db_QueryRow (db s) (Select [Count "hash"] (VerticesTable (config s)) []) with
  | Err err => (0, Some err)
  | Ok r =>
      match scan_int (cell_at r 0) with
      | Err err => (0, Some err)
      | Ok count => (count, None)
      end
  end.

Definition AddEdge (s : Store) (sourceHash targetHash : K) (edge : graph.Edge K)
    : Store * option error :=
  match json_Marshal (graph.EdgeProperties.Attributes (graph.Properties edge)) with
  | Err err => (s, Some err)
  | Ok attributesBytes =>
      let (d, err) :=
        db_Exec (db s)
          (InsertInto (EdgesTable (config s))
             ["source_hash"; "target_hash"; "weight"; "attributes"; "data"]
             [Some (key_value sourceHash); Some (key_value targetHash);
              Some (SInt (graph.EdgeProperties.Weight (graph.Properties edge)));
              Some (SBlob attributesBytes);
              graph.EdgeProperties.Data (graph.Properties edge)]) in
      (with_db s d, err)
  end.

Definition RemoveEdge (s : Store) (sourceHash targetHash : K) : Store * option error :=
  let (d, err) :=
    db_Exec (db s)
      (DeleteFrom (EdgesTable (config s))
         [sq_Eq "source_hash" (Some (key_value sourceHash));
          sq_Eq "target_hash" (Some (key_value targetHash))]) in
  (with_db s d, err).

Definition Edge (s : Store) (sourceHash targetHash : K) : graph.Edge K * option error :=
  let edge := graph.MakeEdge sourceHash targetHash zero in
  match
    db_QueryRow (db s)
      (Select [Col "weight"; Col "attributes"; Col "data"]
         (EdgesTable (config s))
         [sq_Eq "source_hash" (Some (key_value sourceHash));
          sq_Eq "target_hash" (Some (key_value targetHash))])
  with
  | Err err =>
      if errors_Is err ErrNoRows then (edge, Some ErrEdgeNotFound)
      else (edge, Some (Errorf "failed to scan row" err))
  | Ok r =>
      (* Scan(&edge.Properties.Weight, &attributesBytes, &edge.Properties.Data) *)
      match scan_int (cell_at r 0) with
      | Err err =>
          if errors_Is err ErrNoRows then (edge, Some ErrEdgeNotFound)
          else (edge, Some (Errorf "failed to scan row" err))
      | Ok weight =>
          let attributesBytes := scan_bytes (cell_at r 1) in
          let data := scan_any (cell_at r 2) in
          let edge :=
            graph.MakeEdge sourceHash targetHash (graph.EdgeProperties.Make None weight data) in
          let (attributes, err) := json_Unmarshal attributesBytes in
          let edge :=
            graph.MakeEdge sourceHash targetHash
              (graph.EdgeProperties.Make attributes weight data) in
          match err with
          | Some err => (edge, Some (Errorf "failed to unmarshal attributes" err))
          | None => (edge, None)
          end
      end
  end.

(** The loop of [ListEdges] over the result rows. *)
Fixpoint ListEdges_rows (rs : list (list cell)) (edges : list (graph.Edge K))
    : list (graph.Edge K) * option error :=
  match rs with
  | [] => (edges, None)
  | r :: rs =>
      match key_scan (cell_at r 0) with
      | Err err => ([], Some (Errorf "failed to scan row" err))
      | Ok source =>
          match key_scan (cell_at r 1) with
          | Err err => ([], Some (Errorf "failed to scan row" err))
          | Ok target =>
              match scan_int (cell_at r 2) with
              | Err err => ([], Some (Errorf "failed to scan row" err))
              | Ok weight =>
                  let attributesBytes := scan_bytes (cell_at r 3) in
                  let data := scan_any (cell_at r 4) in
                  let (attributes, err) := json_Unmarshal attributesBytes in
                  match err with
                  | Some err => ([], Some (Errorf "failed to unmarshal attributes" err))
                  | None =>
                      let edge :=
                        graph.MakeEdge source target
                          (graph.EdgeProperties.Make attributes weight data) in
                      ListEdges_rows rs (edges ++ [edge])
                  end
              end
          end
      end
  end.

Definition ListEdges (s : Store) : list (graph.Edge K) * option error :=
  match
    db_Query (db s)
      (Select [Col "source_hash"; Col "target_hash"; Col "weight"; Col "attributes"; Col "data"]
         (EdgesTable (config s)) [])
  with
  | Err err => ([], Some (Errorf "failed to query edges" err))
  | Ok rs => ListEdges_rows rs []
  end.

Definition EdgeCount (s : Store) : Z * option error :=
  match db_QueryRow (db s) (Select [Count "source_hash"] (EdgesTable (config s)) []) with
  | Err err => (0, Some err)
  | Ok r =>
      match scan_int (cell_at r 0) with
      | Err err => (0, Some err)
      | Ok count => (count, None)
      end
  end.

Definition UpdateEdge (s : Store) (sourceHash targetHash : K) (edge : graph.Edge K)
    : Store * option error :=
  match json_Marshal (graph.EdgeProperties.Attributes (graph.Properties edge)) with
  | Err err => (s, Some err)
  | Ok attributesBytes =>
      let (d, err) :=
        db_Exec (db s)
          (UpdateSet (EdgesTable (config s))
             [("weight", Some (SInt (graph.EdgeProperties.Weight (graph.Properties edge))));
              ("attributes", Some (SBlob attributesBytes));
              ("data", graph.EdgeProperties.Data (graph.Properties edge))]
             [CmpEq "source_hash" (Some (key_value sourceHash));
              CmpEq "target_hash" (Some (key_value targetHash))]) in
      (with_db s d, err)
  end.

End Store.

(** ** The store of the tests: [Store[int, int]] on SQLite *)

#[global] Instance int_zero : Zero Z := 0.

Lemma SInt_inj (a b : Z) : SInt a = SInt b -> a = b.
Proof. congruence. Qed.

#[global] Instance int_key : SQLKey Z :=
  {| key_value := SInt; key_scan := scan_int; key_value_inj := SInt_inj |}.

(** JSON numbers for [int]: [Marshal] writes the decimal form, [Unmarshal]
    reads a number in that form. *)
#[global] Instance int_json : JSON Z :=
  {| marshal := fun z => inl (format_int z);
     unmarshal := fun data =>
       match parse_int data with
       | Some z =>
           if bool_decide (format_int z = data) then (z, None)
           else (0, Some "invalid character looking for beginning of value")
       | None => (0, Some "json: cannot unmarshal into Go value of type int")
       end |}.

(** The attribute maps of the tests need a codec too: JSON objects of
    strings, written with the keys in the map's own order (the reader does
    not depend on it) and with quote and backslash escaped. *)

Definition quote : ascii := ascii_of_nat 34.
Definition backslash : ascii := ascii_of_nat 92.

(** A JSON string literal: quote and backslash are escaped. *)
Fixpoint json_escape (s : string) : string :=
  match s with
  | EmptyString => EmptyString
  | String c s' =>
      if bool_decide (c = quote) || bool_decide (c = backslash)
      then String backslash (String c (json_escape s'))
      else String c (json_escape s')
  end.

Definition json_string (s : string) : string :=
  String quote (json_escape s) +:+ String quote EmptyString.

(** Reads a string literal after its opening quote: the text and the rest
    of the input. *)
Fixpoint read_string (s acc : string) : option (string * string) :=
  match s with
  | EmptyString => None
  | String c s' =>
      if bool_decide (c = quote) then Some (acc, s')
      else if bool_decide (c = backslash) then
        match s' with
        | EmptyString => None
        | String d s'' => read_string s'' (acc +:+ String d EmptyString)
        end
      else read_string s' (acc +:+ String c EmptyString)
  end.

Definition read_literal (s : string) : option (string * string) :=
  match s with
  | String c s' => if bool_decide (c = quote) then read_string s' EmptyString else None
  | EmptyString => None
  end.

(** Reads the members of an object after its opening brace. *)
Fixpoint read_members (fuel : nat) (s : string) (acc : gmap string string)
    : option (gmap string string) :=
  match fuel with
  | O => None
  | S fuel =>
      match read_literal s with
      | None => None
      | Some (k, rest) =>
          match rest with
          | String ":" rest =>
              match read_literal rest with
              | None => None
              | Some (v, rest) =>
                  match rest with
                  | String "," rest => read_members fuel rest (<[k := v]> acc)
                  | String "}" EmptyString => Some (<[k := v]> acc)
                  | _ => None
                  end
              end
          | _ => None
          end
      end
  end.

Definition json_object (m : gmap string string) : string :=
  "{" +:+
  String.concat "," (map (fun kv => json_string kv.1 +:+ ":" +:+ json_string kv.2) (map_to_list m))
  +:+ "}".

Definition parse_object (data : string) : option graph.Attributes :=
  if bool_decide (data = "null") then Some None
  else if bool_decide (data = "{}") then Some (Some ∅)
  else
    match data with
    | String "{" rest => Some <$> read_members (String.length rest) rest ∅
    | _ => None
    end.

(** JSON objects of strings for [map[string]string]; the nil map is [null]. *)
#[global] Instance attributes_json : AttributesJSON :=
  {| marshal_attributes := fun m =>
       match m with
       | None => "null"
       | Some m => json_object m
       end;
     unmarshal_attributes := fun data =>
       match parse_object data with
       | Some m => (m, None)
       | None => (None, Some "json: cannot unmarshal into Go value of type map[string]string")
       end |}.

(** [createStore] of the tests: a fresh in-memory database, set up with the
    default configuration (the tests run on SQLite). *)
Definition createStore (E : Engine) : Store * option error :=
  SetupTables (New ∅ DefaultConfig).

(** ** What a state of the database holds *)

(** The rows of a table; none when the table does not exist. *)
Definition table_rows (d : database) (name : string) : list row :=
  match d !! name with
  | Some t => rows t
  | None => []
  end.

Definition vertex_rows (s : Store) : list row :=
  table_rows (db s) (VerticesTable (config s)).

Definition edge_rows (s : Store) : list row :=
  table_rows (db s) (EdgesTable (config s)).

(** The columns the two CREATE TABLE statements declare. *)
Definition vertices_columns (c : Config) : list (string * string) :=
  match createVerticesTableSQL c with
  | CreateTable _ cols => cols
  | _ => []
  end.

Definition edges_columns (c : Config) : list (string * string) :=
  match createEdgesTableSQL c with
  | CreateTable _ cols => cols
  | _ => []
  end.

(** The table [name] exists with the columns [cols]. *)
Definition has_table (d : database) (name : string) (cols : list (string * string)) : Prop :=
  columns <$> d !! name = Some cols.

(** The vertices table is as [SetupTables] creates it. *)
Definition vertices_ready (s : Store) : Prop :=
  has_table (db s) (VerticesTable (config s)) (vertices_columns (config s)).

(** The edges table is as [SetupTables] creates it. *)
Definition edges_ready (s : Store) : Prop :=
  has_table (db s) (EdgesTable (config s)) (edges_columns (config s)).

(** The row is the vertex [hash]. *)
Definition row_of_vertex {K} `{SQLKey K} (hash : K) (r : row) : Prop :=
  r !! "hash" = Some (key_value hash).

(** The row is the edge from [source] to [target]. *)
Definition row_of_edge {K} `{SQLKey K} (source target : K) (r : row) : Prop :=
  r !! "source_hash" = Some (key_value source) /\
  r !! "target_hash" = Some (key_value target).

(** The row [UpdateEdge] leaves in place of a matching row. *)
Definition updated_row (r : row) (weight : Z) (attributesBytes : string) (data : cell) : row :=
  set_cells r [("weight", Some (SInt weight)); ("attributes", Some (SBlob attributesBytes));
               ("data", data)].

(** The cells [ListEdges] selects from a row. *)
Definition edge_cells (r : row) : list cell :=
  [r !! "source_hash"; r !! "target_hash"; r !! "weight"; r !! "attributes"; r !! "data"].

(** The [hash] column of the rows. *)
Definition hashes (rs : list row) : list cell := (fun r : row => r !! "hash") <$> rs.

#[global] Instance row_of_vertex_dec {K} `{SQLKey K} (hash : K) (r : row) :
  Decision (row_of_vertex hash r).
Proof. unfold row_of_vertex. apply _. Defined.

#[global] Instance row_of_edge_dec {K} `{SQLKey K} (source target : K) (r : row) :
  Decision (row_of_edge source target r).
Proof. unfold row_of_edge. apply _. Defined.

(** The last value a list of assignments gives to [col]. *)
Fixpoint assigned (cvs : list (string * cell)) (col : string) : option cell :=
  match cvs with
  | [] => None
  | cv :: cvs =>
      match assigned cvs col with
      | Some v => Some v
      | None => if bool_decide (cv.1 = col) then Some cv.2 else None
      end
  end.

(** Both tables are as [SetupTables] creates them. *)
Record ready (s : Store) : Prop := Ready {
  ready_names : VerticesTable (config s) <> EdgesTable (config s);
  ready_vertices : vertices_ready s;
  ready_edges : edges_ready s;
}.

(** ** Histories of calls *)

(** Keys are comparable: two keys are equal when the driver is passed the
    same value for them. *)
#[global] Instance SQLKey_eq_dec {K} `{SQLKey K} : EqDecision K.
Proof.
  intros a b. destruct (decide (key_value a = key_value b)) as [e|n].
  - left. by apply key_value_inj.
  - right. intros ->. by apply n.
Defined.

Section Calls.
Context `{Engine}.
Context {K T : Type} `{SQLKey K} `{Zero T} `{JSON T} `{AttributesJSON}.

(** A call of one of the methods that write. *)
Inductive call : Type :=
| CallAddVertex (hash : K) (value : T) (properties : graph.VertexProperties.t)
| CallRemoveVertex (hash : K)
| CallAddEdge (source target : K) (edge : graph.Edge K)
| CallRemoveEdge (source target : K)
| CallUpdateEdge (source target : K) (edge : graph.Edge K).

Definition do_call (s : Store) (c : call) : Store * option error :=
  match c with
  | CallAddVertex hash value properties => AddVertex s hash value properties
  | CallRemoveVertex hash => RemoveVertex s hash
  | CallAddEdge source target edge => AddEdge s source target edge
  | CallRemoveEdge source target => RemoveEdge s source target
  | CallUpdateEdge source target edge => UpdateEdge s source target edge
  end.

(** The store after the calls, made one after the other. *)
Fixpoint do_calls (s : Store) (cs : list call) : Store :=
  match cs with
  | [] => s
  | c :: cs => do_calls (do_call s c).1 cs
  end.


(** The number of [AddVertex] calls among [cs], made from [s] on, that
    returned no error. *)
Fixpoint successful_AddVertex (s : Store) (cs : list call) : Z :=
  match cs with
  | [] => 0
  | c :: cs =>
      match c, (do_call s c).2 with
      | CallAddVertex _ _ _, None => 1
      | _, _ => 0
      end + successful_AddVertex (do_call s c).1 cs
  end.

(** The number of [RemoveVertex] calls among [cs] that returned no error. *)
Fixpoint successful_RemoveVertex (s : Store) (cs : list call) : Z :=
  match cs with
  | [] => 0
  | c :: cs =>
      match c, (do_call s c).2 with
      | CallRemoveVertex _, None => 1
      | _, _ => 0
      end + successful_RemoveVertex (do_call s c).1 cs
  end.

(** The number of [RemoveVertex] calls among [cs] whose key had a row when
    the call was made. *)
Fixpoint effective_RemoveVertex (s : Store) (cs : list call) : Z :=
  match cs with
  | [] => 0
  | c :: cs =>
      match c with
      | CallRemoveVertex hash =>
          if decide (Exists (row_of_vertex hash) (vertex_rows s)) then 1 else 0
      | _ => 0
      end + effective_RemoveVertex (do_call s c).1 cs
  end.

(** No [AddVertex] among [cs] is for a key that has a row when the call is
    made: the keys in the table stay distinct. *)
Fixpoint adds_distinct (s : Store) (cs : list call) : Prop :=
  match cs with
  | [] => True
  | c :: cs =>
      match c with
      | CallAddVertex hash _ _ => Forall (fun r => ~ row_of_vertex hash r) (vertex_rows s)
      | _ => True
      end /\ adds_distinct (do_call s c).1 cs
  end.

(** The keys the vertex calls among [cs] are made on. *)
Fixpoint vertex_keys (cs : list call) : list K :=
  match cs with
  | [] => []
  | CallAddVertex hash _ _ :: cs => hash :: vertex_keys cs
  | CallRemoveVertex hash :: cs => hash :: vertex_keys cs
  | _ :: cs => vertex_keys cs
  end.


(** What one call does to the rows of the two tables. *)
Definition call_effect (s : Store) (c : call) (s' : Store) (err : option error) : Prop :=
  match c with
  | CallAddVertex hash _ _ =>
      edge_rows s' = edge_rows s /\
      match err with
      | Some _ => vertex_rows s' = vertex_rows s
      | None => exists r : row, vertex_rows s' = vertex_rows s ++ [r] /\ row_of_vertex hash r
      end
  | CallRemoveVertex hash =>
      err = None /\
      edge_rows s' = edge_rows s /\
      vertex_rows s' = filter (fun r => ~ row_of_vertex hash r) (vertex_rows s)
  | CallAddEdge source target _ =>
      err = None /\
      vertex_rows s' = vertex_rows s /\
      exists r : row, edge_rows s' = edge_rows s ++ [r] /\ row_of_edge source target r
  | CallRemoveEdge source target =>
      err = None /\
      vertex_rows s' = vertex_rows s /\
      edge_rows s' = filter (fun r => ~ row_of_edge source target r) (edge_rows s)
  | CallUpdateEdge source target edge =>
      err = None /\
      vertex_rows s' = vertex_rows s /\
      Forall2 (fun r r' => r' !! "source_hash" = r !! "source_hash" /\
                           r' !! "target_hash" = r !! "target_hash")
              (edge_rows s) (edge_rows s')
  end.

(** The attribute map reads back from its encoding. *)
Definition reads_back (m : graph.Attributes) : Prop :=
  unmarshal_attributes (marshal_attributes m) = (m, None).

(** The attribute maps that the calls write to the edges table read back. *)
Definition edge_attributes_read_back (cs : list call) : Prop :=
  Forall (fun c =>
            match c with
            | CallAddEdge _ _ edge | CallUpdateEdge _ _ edge =>
                reads_back (graph.EdgeProperties.Attributes (graph.Properties edge))
            | _ => True
            end) cs.

(** The row holds the edge: its two keys, its weight, its data, and
    attributes that decode to the edge's. *)
Definition row_holds_edge (r : row) (e : graph.Edge K) : Prop :=
  row_of_edge (graph.Source e) (graph.Target e) r /\
  r !! "weight" = Some (SInt (graph.EdgeProperties.Weight (graph.Properties e))) /\
  r !! "data" = graph.EdgeProperties.Data (graph.Properties e) /\
  unmarshal_attributes (scan_bytes (r !! "attributes")) =
    (graph.EdgeProperties.Attributes (graph.Properties e), None).

End Calls.

(** ** The scenarios of the tests *)

(** The store that [createStore] returns. *)
Definition fresh_store (E : Engine) : Store := (createStore E).1.

(** An edge between two [int] vertices with [graph.EdgeProperties{}]. *)
Definition plain_edge (source target : Z) : graph.Edge Z :=
  graph.MakeEdge source target zero.

(** [TestEdgeCount]: two vertices and no edge, then four edges, then one
    edge removed. *)
Definition TestEdgeCount (E : Engine) : Prop :=
  let s1 := do_calls (T := Z) (fresh_store E)
              [CallAddVertex 1 1 zero; CallAddVertex 2 2 zero] in
  let s2 := do_calls (T := Z) s1
              [CallAddEdge 1 2 (plain_edge 1 2); CallAddEdge 2 1 (plain_edge 2 1);
               CallAddEdge 1 1 (plain_edge 1 1); CallAddEdge 2 2 (plain_edge 2 2)] in
  let s3 := do_calls (T := Z) s2 [CallRemoveEdge 2 2] in
  EdgeCount s1 = (0, None) /\ EdgeCount s2 = (4, None) /\ EdgeCount s3 = (3, None).

(** The larger graph of [TestRemoveVertex]: four vertices, then vertex 3
    removed. *)
Definition TestRemoveVertex (E : Engine) : Prop :=
  let s1 := do_calls (T := Z) (fresh_store E)
              [CallAddVertex 1 1 zero; CallAddVertex 2 2 zero;
               CallAddVertex 3 3 zero; CallAddVertex 4 4 zero] in
  let s2 := do_calls (T := Z) s1 [CallRemoveVertex 3] in
  VertexCount s1 = (4, None) /\
  VertexCount s2 = (3, None) /\
  (Vertex (T := Z) s2 3).2 = Some (Errorf "failed to query vertex" ErrNoRows).

(** The properties of [TestUpdateEdge]. *)
Definition happy : graph.EdgeProperties.t :=
  graph.EdgeProperties.Make (Some {[ "abc" := "xyz" ]}) 5 (Some (SText "happy")).


(** * Proofs *)

(** ** The engine *)

Lemma set_cell_lookup (r : row) (cv : string * cell) (col : string) :
  set_cell r cv !! col = if bool_decide (cv.1 = col) then cv.2 else r !! col.
Proof.
  unfold set_cell. destruct cv as [c [v|]]; simpl; case_bool_decide; subst.
  - by rewrite lookup_insert_eq.
  - by rewrite lookup_insert_ne.
  - by rewrite lookup_delete_eq.
  - by rewrite lookup_delete_ne.
Qed.

Lemma set_cells_lookup (cvs : list (string * cell)) (r : row) (col : string) :
  set_cells r cvs !! col = default (r !! col) (assigned cvs col).
Proof.
  unfold set_cells. revert r. induction cvs as [|cv cvs IH]; intros r; simpl; [done|].
  rewrite IH. destruct (assigned cvs col); simpl; [done|].
  rewrite set_cell_lookup. by case_bool_decide.
Qed.

Lemma new_row_lookup `{Engine} (t : table) (cols : list string) (vals : list cell)
    (col : string) (v : cell) :
  assigned (zip cols vals) col = Some v ->
  new_row t cols vals !! col = v.
Proof. intros Ha. unfold new_row. by rewrite set_cells_lookup, Ha. Qed.

Lemma has_table_lookup (d : database) (name : string) (cols : list (string * string)) :
  has_table d name cols -> exists rs, d !! name = Some (Table cols rs).
Proof.
  unfold has_table. destruct (d !! name) as [[cs rs]|]; simpl; [|done].
  intros [= ->]. by exists rs.
Qed.

Lemma has_table_rows (d : database) (name : string) (cols : list (string * string)) :
  has_table d name cols -> d !! name = Some (Table cols (table_rows d name)).
Proof.
  intros Ht. destruct (has_table_lookup _ _ _ Ht) as [rs Hd].
  unfold table_rows. by rewrite Hd.
Qed.

Lemma db_Query_columns (d : database) (name : string) (t : table)
    (es : list expr) (w : list cond) :
  d !! name = Some t ->
  check_columns t (map expr_column es ++ map cond_column w) = None ->
  existsb is_count es = false ->
  db_Query d (Select es name w) =
    Ok (map (fun r => map (fun e => r !! expr_column e) es)
            (filter (fun r => matches w r = true) (rows t))).
Proof. intros Hd Hc He. unfold db_Query. simpl. by rewrite Hd, Hc, He. Qed.

Lemma filter_matches_nil (rs : list row) :
  filter (fun r => matches [] r = true) rs = rs.
Proof.
  induction rs as [|r rs IH]; [done|].
  rewrite filter_cons_True by done. by rewrite IH.
Qed.

Lemma db_Query_count (d : database) (name : string) (t : table) (col : string) :
  d !! name = Some t ->
  declared t col = true ->
  db_Query d (Select [Count col] name []) =
    Ok [[Some (SInt (Z.of_nat (length (filter (fun r => is_Some (r !! col)) (rows t)))))]].
Proof.
  intros Hd Hc. unfold db_Query. simpl. rewrite Hd.
  rewrite Hc. simpl. by rewrite filter_matches_nil.
Qed.

Lemma table_rows_insert (d : database) (name : string) (t : table) :
  table_rows (<[name := t]> d) name = rows t.
Proof. unfold table_rows. by rewrite lookup_insert_eq. Qed.

Lemma table_rows_insert_ne (d : database) (name name' : string) (t : table) :
  name <> name' -> table_rows (<[name := t]> d) name' = table_rows d name'.
Proof. intros Hn. unfold table_rows. by rewrite lookup_insert_ne. Qed.

Lemma has_table_insert (d : database) (name : string) (cols : list (string * string))
    (rs : list row) :
  has_table (<[name := Table cols rs]> d) name cols.
Proof. unfold has_table. by rewrite lookup_insert_eq. Qed.

Lemma has_table_insert_ne (d : database) (name name' : string) (t : table)
    (cols : list (string * string)) :
  name <> name' -> has_table (<[name := t]> d) name' cols <-> has_table d name' cols.
Proof. intros Hn. unfold has_table. by rewrite lookup_insert_ne. Qed.

Section Methods.
Context `{Engine}.
Context {K T : Type} `{SQLKey K} `{Zero T} `{JSON T} `{AttributesJSON}.

Lemma matches_vertex (hash : K) (r : row) :
  matches [sq_Eq "hash" (Some (key_value hash))] r = true <-> row_of_vertex hash r.
Proof.
  unfold row_of_vertex. simpl. rewrite andb_true_r.
  destruct (r !! "hash") as [v|]; [|done].
  rewrite bool_decide_eq_true. split; congruence.
Qed.

Lemma matches_edge (source target : K) (r : row) :
  matches [sq_Eq "source_hash" (Some (key_value source));
           sq_Eq "target_hash" (Some (key_value target))] r = true
  <-> row_of_edge source target r.
Proof.
  unfold row_of_edge. simpl. rewrite andb_true_r, andb_true_iff.
  destruct (r !! "source_hash") as [v|], (r !! "target_hash") as [v'|];
    rewrite ?bool_decide_eq_true; split; intros [? ?]; split; congruence.
Qed.

Lemma AddVertex_ready (s : Store) (hash : K) (value : T)
    (properties : graph.VertexProperties.t) (valueBytes : string) :
  vertices_ready s ->
  marshal value = inl valueBytes ->
  exists r : row,
    AddVertex s hash value properties =
      (with_db s (<[VerticesTable (config s) :=
                     Table (vertices_columns (config s)) (vertex_rows s ++ [r])]> (db s)),
       None) /\
    r !! "hash" = Some (key_value hash) /\
    r !! "value" = Some (SBlob valueBytes) /\
    r !! "weight" = Some (SInt (graph.VertexProperties.Weight properties)) /\
    r !! "attributes" =
      Some (SBlob (marshal_attributes (graph.VertexProperties.Attributes properties))).
Proof.
  intros Hr Hv. apply has_table_rows in Hr. fold (vertex_rows s) in Hr.
  unfold AddVertex, json_Marshal. rewrite Hv. simpl. rewrite Hr. simpl.
  eexists. split; [reflexivity|].
  repeat split; by apply new_row_lookup.
Qed.

Lemma RemoveVertex_ready (s : Store) (hash : K) :
  vertices_ready s ->
  RemoveVertex s hash =
    (with_db s (<[VerticesTable (config s) :=
                   Table (vertices_columns (config s))
                         (filter (fun r => ~ row_of_vertex hash r) (vertex_rows s))]> (db s)),
     None).
Proof.
  intros Hr. apply has_table_rows in Hr. fold (vertex_rows s) in Hr.
  unfold RemoveVertex. simpl. rewrite Hr. simpl. do 4 f_equal.
  apply list_filter_iff. intros r. rewrite <- matches_vertex.
  symmetry. apply not_true_iff_false.
Qed.

Lemma Vertex_query (s : Store) (hash : K) :
  vertices_ready s ->
  db_QueryRow (db s)
    (Select [Col "value"; Col "weight"; Col "attributes"] (VerticesTable (config s))
       [sq_Eq "hash" (Some (key_value hash))]) =
  match filter (row_of_vertex hash) (vertex_rows s) with
  | [] => Err ErrNoRows
  | r :: _ => Ok [r !! "value"; r !! "weight"; r !! "attributes"]
  end.
Proof.
  intros Hr. apply has_table_rows in Hr. fold (vertex_rows s) in Hr.
  unfold db_QueryRow. erewrite db_Query_columns; [|exact Hr|done|done]. simpl.
  rewrite (list_filter_iff _ (row_of_vertex hash)) by apply matches_vertex.
  by destruct (filter _ _).
Qed.

Lemma VertexCount_ready (s : Store) :
  vertices_ready s ->
  VertexCount s =
    (Z.of_nat (length (filter (fun r => is_Some (r !! "hash")) (vertex_rows s))), None).
Proof.
  intros Hr. apply has_table_rows in Hr. fold (vertex_rows s) in Hr.
  unfold VertexCount, db_QueryRow. by erewrite db_Query_count; [|exact Hr|done].
Qed.

Lemma AddEdge_ready (s : Store) (source target : K) (edge : graph.Edge K) :
  edges_ready s ->
  exists r : row,
    AddEdge s source target edge =
      (with_db s (<[EdgesTable (config s) :=
                     Table (edges_columns (config s)) (edge_rows s ++ [r])]> (db s)),
       None) /\
    r !! "source_hash" = Some (key_value source) /\
    r !! "target_hash" = Some (key_value target) /\
    r !! "weight" = Some (SInt (graph.EdgeProperties.Weight (graph.Properties edge))) /\
    r !! "attributes" =
      Some (SBlob (marshal_attributes (graph.EdgeProperties.Attributes (graph.Properties edge)))) /\
    r !! "data" = graph.EdgeProperties.Data (graph.Properties edge).
Proof.
  intros Hr. apply has_table_rows in Hr. fold (edge_rows s) in Hr.
  unfold AddEdge, json_Marshal. simpl. rewrite Hr. simpl.
  eexists. split; [reflexivity|].
  repeat split; by apply new_row_lookup.
Qed.

Lemma RemoveEdge_ready (s : Store) (source target : K) :
  edges_ready s ->
  RemoveEdge s source target =
    (with_db s (<[EdgesTable (config s) :=
                   Table (edges_columns (config s))
                         (filter (fun r => ~ row_of_edge source target r) (edge_rows s))]> (db s)),
     None).
Proof.
  intros Hr. apply has_table_rows in Hr. fold (edge_rows s) in Hr.
  unfold RemoveEdge. simpl. rewrite Hr. simpl. do 4 f_equal.
  apply list_filter_iff. intros r. rewrite <- matches_edge.
  symmetry. apply not_true_iff_false.
Qed.

Lemma UpdateEdge_ready (s : Store) (source target : K) (edge : graph.Edge K) :
  edges_ready s ->
  UpdateEdge s source target edge =
    (with_db s (<[EdgesTable (config s) :=
                   Table (edges_columns (config s))
                     (map (fun r =>
                             if decide (row_of_edge source target r)
                             then updated_row r
                                    (graph.EdgeProperties.Weight (graph.Properties edge))
                                    (marshal_attributes
                                       (graph.EdgeProperties.Attributes (graph.Properties edge)))
                                    (graph.EdgeProperties.Data (graph.Properties edge))
                             else r)
                          (edge_rows s))]> (db s)),
     None).
Proof.
  intros Hr. apply has_table_rows in Hr. fold (edge_rows s) in Hr.
  unfold UpdateEdge, json_Marshal. simpl. rewrite Hr. simpl. do 4 f_equal.
  apply map_ext. intros r.
  pose proof (matches_edge source target r) as Hm. simpl in Hm.
  destruct (decide (row_of_edge source target r)) as [Hy|Hn].
  - apply Hm in Hy. by rewrite Hy.
  - match goal with |- (if ?b then _ else _) = _ => assert (b = false) as -> end; [|done].
    apply not_true_iff_false. intros E. by apply Hm in E.
Qed.

Lemma Edge_query (s : Store) (source target : K) :
  edges_ready s ->
  db_QueryRow (db s)
    (Select [Col "weight"; Col "attributes"; Col "data"] (EdgesTable (config s))
       [sq_Eq "source_hash" (Some (key_value source));
        sq_Eq "target_hash" (Some (key_value target))]) =
  match filter (row_of_edge source target) (edge_rows s) with
  | [] => Err ErrNoRows
  | r :: _ => Ok [r !! "weight"; r !! "attributes"; r !! "data"]
  end.
Proof.
  intros Hr. apply has_table_rows in Hr. fold (edge_rows s) in Hr.
  unfold db_QueryRow. erewrite db_Query_columns; [|exact Hr|done|done]. simpl.
  rewrite (list_filter_iff _ (row_of_edge source target)) by apply matches_edge.
  by destruct (filter _ _).
Qed.

Lemma EdgeCount_ready (s : Store) :
  edges_ready s ->
  EdgeCount s =
    (Z.of_nat (length (filter (fun r => is_Some (r !! "source_hash")) (edge_rows s))), None).
Proof.
  intros Hr. apply has_table_rows in Hr. fold (edge_rows s) in Hr.
  unfold EdgeCount, db_QueryRow. by erewrite db_Query_count; [|exact Hr|done].
Qed.

End Methods.

(** ** Lists of rows *)

Section Filter.
Context {A : Type} (P : A -> Prop) `{forall x, Decision (P x)}.

Lemma filter_none (l : list A) : filter P l = [] <-> Forall (fun x => ~ P x) l.
Proof.
  induction l as [|x l IH]; [by split|].
  rewrite Forall_cons. destruct (decide (P x)).
  - rewrite filter_cons_True by done. split; [done|]. by intros [? _].
  - rewrite filter_cons_False by done. rewrite IH. tauto.
Qed.

Lemma filter_all (l : list A) : Forall P l -> filter P l = l.
Proof.
  induction 1 as [|x l Hx _ IH]; [done|].
  rewrite filter_cons_True by done. by rewrite IH.
Qed.

Lemma filter_complement_all (l : list A) :
  Forall (fun x => ~ P x) l -> filter (fun x => ~ P x) l = l.
Proof.
  induction 1 as [|x l Hx _ IH]; [done|].
  rewrite filter_cons_True by done. by rewrite IH.
Qed.

Lemma Forall_kept (Q : A -> Prop) (l : list A) : Forall Q l -> Forall Q (filter P l).
Proof.
  rewrite !Forall_forall. intros Hl x [_ Hin]%list_elem_of_filter. by apply Hl.
Qed.

End Filter.



Lemma with_db_same (s : Store) : with_db s (db s) = s.
Proof. by destruct s. Qed.

(** ** The claims about one call *)

Section Claims.
Context `{Engine}.
Context {K T : Type} `{SQLKey K} `{Zero T} `{JSON T} `{AttributesJSON}.

(** C10: whatever [Edge source target] returns, with or without an error,
    the edge it returns has [Source = source] and [Target = target]. *)
Theorem Edge_Source_Target (s : Store) (source target : K) :
  graph.Source (Edge s source target).1 = source /\
  graph.Target (Edge s source target).1 = target.
Proof.
  unfold Edge.
  destruct (db_QueryRow _ _) as [r|err].
  - destruct (scan_int _) as [weight|err].
    + destruct (json_Unmarshal _) as [attributes [err|]]; by split.
    + destruct (errors_Is _ _); by split.
  - destruct (errors_Is _ _); by split.
Qed.

(** C7: removing a vertex that has no row, or an edge that has no row, is
    not an error: the call returns nil and the store is as it was. *)
Theorem Remove_absent (s : Store) :
  (forall hash : K,
      vertices_ready s ->
      Forall (fun r => ~ row_of_vertex hash r) (vertex_rows s) ->
      RemoveVertex s hash = (s, None)) /\
  (forall source target : K,
      edges_ready s ->
      Forall (fun r => ~ row_of_edge source target r) (edge_rows s) ->
      RemoveEdge s source target = (s, None)).
Proof.
  split.
  - intros hash Hr Hno. rewrite RemoveVertex_ready by done.
    rewrite filter_complement_all by done.
    rewrite insert_id by by apply has_table_rows.
    by rewrite with_db_same.
  - intros source target Hr Hno. rewrite RemoveEdge_ready by done.
    rewrite filter_complement_all by done.
    rewrite insert_id by by apply has_table_rows.
    by rewrite with_db_same.
Qed.

(** C3: [Vertex] on a key with no row fails with the empty query result,
    [sql.ErrNoRows], wrapped as a failed query; on a key whose row holds a
    value or attributes that do not parse, it fails with the wrapped decode
    error. *)
Theorem Vertex_not_found_or_decode_error (s : Store) (hash : K) :
  vertices_ready s ->
  (Forall (fun r => ~ row_of_vertex hash r) (vertex_rows s) ->
   exists err,
     (Vertex (T := T) s hash).2 = Some err /\
     err = Errorf "failed to query vertex" ErrNoRows /\
     errors_Is err ErrNoRows = true) /\
  (forall (r : row) (rest : list row) (weight : Z),
      filter (row_of_vertex hash) (vertex_rows s) = r :: rest ->
      scan_int (r !! "weight") = Ok weight ->
      (forall msg,
          (unmarshal (A := T) (scan_bytes (r !! "value"))).2 = Some msg ->
          (Vertex (T := T) s hash).2 =
            Some (Errorf "failed to unmarshal value" (JSONError msg))) /\
      (forall msg,
          (unmarshal (A := T) (scan_bytes (r !! "value"))).2 = None ->
          (unmarshal_attributes (scan_bytes (r !! "attributes"))).2 = Some msg ->
          (Vertex (T := T) s hash).2 =
            Some (Errorf "failed to unmarshal attributes" (JSONError msg)))).
Proof.
  intros Hr. split.
  - intros Hno. eexists. unfold Vertex. rewrite Vertex_query by done.
    apply (filter_none (row_of_vertex hash)) in Hno. rewrite Hno. simpl. done.
  - intros r rest weight Hf Hw. unfold Vertex. rewrite Vertex_query by done.
    rewrite Hf. unfold cell_at. simpl. rewrite Hw.
    unfold json_Unmarshal. simpl.
    destruct (unmarshal (A := T) _) as [value [m|]]; simpl.
    + split; [by intros msg [= ->]|done].
    + split; [done|]. intros msg _.
      destruct (unmarshal_attributes _) as [attributes [m|]]; simpl; [|done].
      by intros [= ->].
Qed.


Lemma updated_row_lookup (r : row) (weight : Z) (attributesBytes : string) (data : cell) :
  updated_row r weight attributesBytes data !! "weight" = Some (SInt weight) /\
  updated_row r weight attributesBytes data !! "attributes" = Some (SBlob attributesBytes) /\
  updated_row r weight attributesBytes data !! "data" = data.
Proof. unfold updated_row. by rewrite !set_cells_lookup. Qed.

Lemma updated_row_of_edge (source target : K) (r : row) (weight : Z)
    (attributesBytes : string) (data : cell) :
  row_of_edge source target r ->
  row_of_edge source target (updated_row r weight attributesBytes data).
Proof.
  unfold row_of_edge, updated_row. by rewrite !set_cells_lookup.
Qed.


Lemma ListEdges_query (s : Store) :
  edges_ready s ->
  db_Query (db s)
    (Select [Col "source_hash"; Col "target_hash"; Col "weight"; Col "attributes"; Col "data"]
       (EdgesTable (config s)) []) =
  Ok (map edge_cells (edge_rows s)).
Proof.
  intros Hr. apply has_table_rows in Hr. fold (edge_rows s) in Hr.
  erewrite db_Query_columns; [|exact Hr|done|done]. simpl.
  by rewrite filter_matches_nil.
Qed.





End Claims.

(** ** Histories: what the calls keep true *)

Lemma put_vertices (s : Store) (rs : list row) :
  ready s ->
  let s' := with_db s (<[VerticesTable (config s) :=
                          Table (vertices_columns (config s)) rs]> (db s)) in
  ready s' /\ vertex_rows s' = rs /\ edge_rows s' = edge_rows s.
Proof.
  intros [Hn Hv He]. simpl. split; [split|split]; simpl.
  - done.
  - apply has_table_insert.
  - by apply has_table_insert_ne.
  - apply table_rows_insert.
  - by apply table_rows_insert_ne.
Qed.

Lemma put_edges (s : Store) (rs : list row) :
  ready s ->
  let s' := with_db s (<[EdgesTable (config s) :=
                          Table (edges_columns (config s)) rs]> (db s)) in
  ready s' /\ edge_rows s' = rs /\ vertex_rows s' = vertex_rows s.
Proof.
  intros [Hn Hv He]. simpl. split; [split|split]; simpl.
  - done.
  - by apply has_table_insert_ne.
  - apply has_table_insert.
  - apply table_rows_insert.
  - by apply table_rows_insert_ne.
Qed.

Section Histories.
Context `{Engine}.
Context {K T : Type} `{SQLKey K} `{Zero T} `{JSON T} `{AttributesJSON}.

(** A successful [SetupTables] leaves both tables declared and empty. *)
Lemma SetupTables_ready (s0 s : Store) :
  SetupTables s0 = (s, None) ->
  ready s /\ vertex_rows s = [] /\ edge_rows s = [].
Proof.
  unfold SetupTables. simpl.
  destruct (db s0 !! VerticesTable (config s0)) as [t|] eqn:Hv; [done|].
  destruct (_ !! EdgesTable (config s0)) as [t|] eqn:He; [done|].
  intros [= <-].
  assert (VerticesTable (config s0) <> EdgesTable (config s0)) as Hn.
  { intros Heq. rewrite <- Heq in He. by rewrite lookup_insert_eq in He. }
  split; [split|split]; simpl.
  - done.
  - unfold vertices_ready, has_table. simpl.
    by rewrite lookup_insert_ne, lookup_insert_eq.
  - apply has_table_insert.
  - unfold vertex_rows, table_rows. simpl.
    by rewrite lookup_insert_ne, lookup_insert_eq.
  - unfold edge_rows. simpl. by rewrite table_rows_insert.
Qed.

Lemma do_call_effect (s : Store) (c : call) :
  ready s ->
  ready (do_call s c).1 /\ call_effect s c (do_call s c).1 (do_call s c).2.
Proof.
  intros Hr. destruct c as [hash value properties|hash|source target edge
                            |source target|source target edge]; simpl.
  - destruct (marshal value) as [valueBytes|msg] eqn:Hm.
    + destruct (AddVertex_ready s hash value properties valueBytes (ready_vertices _ Hr) Hm)
        as (r & -> & Hhash & _).
      destruct (put_vertices s (vertex_rows s ++ [r]) Hr) as (? & ? & ?).
      simpl. split; [done|]. split; [done|]. by exists r.
    + unfold AddVertex, json_Marshal. rewrite Hm. simpl. done.
  - rewrite RemoveVertex_ready by apply Hr.
    destruct (put_vertices s (filter (fun r => ~ row_of_vertex hash r) (vertex_rows s)) Hr)
      as (? & ? & ?). simpl. done.
  - destruct (AddEdge_ready s source target edge (ready_edges _ Hr))
      as (r & -> & Hs & Ht & _).
    destruct (put_edges s (edge_rows s ++ [r]) Hr) as (? & ? & ?).
    simpl. split; [done|]. split; [done|]. split; [done|]. by exists r.
  - rewrite RemoveEdge_ready by apply Hr.
    destruct (put_edges s (filter (fun r => ~ row_of_edge source target r) (edge_rows s)) Hr)
      as (? & ? & ?). simpl. done.
  - rewrite UpdateEdge_ready by apply Hr.
    match goal with
    | |- context [with_db s (<[_ := Table _ ?rs]> _)] =>
        destruct (put_edges s rs Hr) as (Hr' & Hrows & Hvrows)
    end.
    simpl. split; [done|]. split; [done|]. split; [done|].
    simpl in Hrows. rewrite Hrows. clear Hr' Hrows Hvrows.
    induction (edge_rows s) as [|r rs IH]; simpl; [constructor|].
    constructor; [|done].
    destruct (decide _); [|done].
    unfold updated_row. by rewrite !set_cells_lookup.
Qed.

Lemma do_calls_ready (s : Store) (cs : list call) :
  ready s -> ready (do_calls s cs).
Proof.
  revert s. induction cs as [|c cs IH]; intros s Hr; simpl; [done|].
  apply IH. by apply do_call_effect.
Qed.

(** Rows of two different edges are different rows. *)
Lemma row_of_edge_inj (a b source target : K) (r : row) :
  row_of_edge a b r -> row_of_edge source target r -> a = source /\ b = target.
Proof.
  intros [Ha Hb] [Hs Ht]. rewrite Ha in Hs. rewrite Hb in Ht.
  split; apply key_value_inj; congruence.
Qed.

Lemma scan_int_error (c : cell) (err : error) :
  scan_int c = Err err -> exists msg, err = DriverError msg.
Proof.
  destruct c as [[z|str|b]|]; simpl; try destruct (parse_int _); intros [= <-]; by eexists.
Qed.




(** *** Counting edges *)

Lemma do_calls_source_hash (cs : list call) (s : Store) :
  ready s ->
  Forall (fun r => is_Some (r !! "source_hash")) (edge_rows s) ->
  Forall (fun r => is_Some (r !! "source_hash")) (edge_rows (do_calls s cs)).
Proof.
  revert s. induction cs as [|c cs IH]; intros s Hr Hs; simpl; [done|].
  destruct (do_call_effect s c Hr) as [Hr' Heff].
  apply IH; [done|]. clear IH.
  destruct c as [hash value properties|hash|a b edge|a b|a b edge];
    unfold call_effect in Heff.
  - destruct Heff as [-> _]. done.
  - destruct Heff as (_ & -> & _). done.
  - destruct Heff as (_ & _ & r & -> & Hrow & _).
    rewrite Forall_app, Forall_singleton. split; [done|]. by rewrite Hrow.
  - destruct Heff as (_ & _ & ->). by apply Forall_kept.
  - destruct Heff as (_ & _ & Hrows). clear Hr'.
    induction Hrows as [|r r' rs rs' [Hsrc _] _ IHrows]; [done|].
    apply Forall_cons in Hs as [Hs1 Hs2].
    constructor; [by rewrite Hsrc|by apply IHrows].
Qed.

Lemma EdgeCount_rows (s0 s : Store) (cs : list call) :
  SetupTables s0 = (s, None) ->
  Forall (fun r => is_Some (r !! "source_hash")) (edge_rows (do_calls s cs)) /\
  EdgeCount (do_calls s cs) = (Z.of_nat (length (edge_rows (do_calls s cs))), None).
Proof.
  intros Hsetup. destruct (SetupTables_ready _ _ Hsetup) as (Hr & _ & He).
  assert (Forall (fun r => is_Some (r !! "source_hash")) (edge_rows (do_calls s cs))) as Hs.
  { apply do_calls_source_hash; [done|]. by rewrite He. }
  split; [done|].
  rewrite EdgeCount_ready by by apply do_calls_ready.
  by rewrite filter_all.
Qed.

(** *** Counting vertices *)

Lemma row_of_vertex_hashes (hash : K) (rs : list row) :
  Forall (fun r => ~ row_of_vertex hash r) rs <-> Some (key_value hash) ∉ hashes rs.
Proof.
  unfold hashes. rewrite list_elem_of_fmap, Forall_forall. unfold row_of_vertex. split.
  - intros Hno (r & Heq & Hin). by apply (Hno r).
  - intros Hno r Hin Heq. apply Hno. by exists r.
Qed.

Lemma length_remove_vertex (hash : K) (rs : list row) :
  NoDup (hashes rs) ->
  Z.of_nat (length (filter (fun r => ~ row_of_vertex hash r) rs)) =
    Z.of_nat (length rs) - (if decide (Exists (row_of_vertex hash) rs) then 1 else 0).
Proof.
  induction rs as [|r rs IH].
  - intros _. rewrite filter_nil. destruct (decide (Exists _ _)) as [He|]; [|done].
    by apply Exists_nil in He.
  - intros [Hnotin Hnd]%NoDup_cons.
    destruct (decide (row_of_vertex hash r)) as [Hrow|Hrow].
    + rewrite filter_cons_False by tauto.
      rewrite filter_complement_all.
      * clear IH. case_decide as Hn; [simpl length; lia|]. exfalso. apply Hn. by left.
      * apply row_of_vertex_hashes. unfold row_of_vertex in Hrow. by rewrite <- Hrow.
    + rewrite filter_cons_True by done. simpl length.
      rewrite Nat2Z.inj_succ, (IH Hnd).
      destruct (decide (Exists _ rs)) as [He|He],
               (decide (Exists _ (r :: rs))) as [He'|He']; try lia.
      * exfalso. apply He'. by right.
      * apply Exists_cons in He' as [?|?]; done.
Qed.

Lemma NoDup_hashes_filter (P : row -> Prop) `{forall r, Decision (P r)} (rs : list row) :
  NoDup (hashes rs) -> NoDup (hashes (filter P rs)).
Proof.
  unfold hashes. intros Hnd. eapply sublist_NoDup; [exact Hnd|].
  apply (fmap_sublist (fun r : row => r !! "hash")), sublist_filter.
Qed.

Lemma VertexCount_from (cs : list call) (s : Store) :
  ready s ->
  Forall (fun r => is_Some (r !! "hash")) (vertex_rows s) ->
  NoDup (hashes (vertex_rows s)) ->
  adds_distinct s cs ->
  VertexCount (do_calls s cs) =
    (Z.of_nat (length (vertex_rows s)) + successful_AddVertex s cs
       - effective_RemoveVertex s cs, None).
Proof.
  revert s. induction cs as [|c cs IH]; intros s Hr Hs Hnd Hdist; simpl.
  - rewrite VertexCount_ready by apply Hr. rewrite filter_all by done.
    f_equal. lia.
  - destruct Hdist as [Hfresh Hdist].
    destruct (do_call_effect s c Hr) as [Hr' Heff].
    specialize (IH _ Hr').
    destruct c as [hash value properties|hash|a b edge|a b|a b edge];
      unfold call_effect in Heff; cbn match.
    + destruct Heff as [_ Heff].
      change (AddVertex s hash value properties)
        with (do_call s (CallAddVertex hash value properties)).
      destruct (do_call _ _).2 as [err|].
      * rewrite IH; rewrite ?Heff; try done; f_equal; lia.
      * destruct Heff as (r & Hrows & Hrow). rewrite IH; rewrite ?Hrows; try done.
        -- rewrite length_app. simpl length. f_equal. lia.
        -- rewrite Forall_app, Forall_singleton. split; [done|]. by rewrite Hrow.
        -- unfold hashes. rewrite fmap_app. simpl.
           apply NoDup_app. split; [done|]. split; [|apply NoDup_singleton].
           intros c Hin ->%list_elem_of_singleton.
           apply row_of_vertex_hashes in Hfresh. apply Hfresh.
           unfold row_of_vertex in Hrow. by rewrite <- Hrow.
    + destruct Heff as (_ & _ & Hrows). rewrite IH; rewrite ?Hrows; try done.
      * rewrite length_remove_vertex by done. f_equal. lia.
      * by apply Forall_kept.
      * by apply NoDup_hashes_filter.
    + destruct Heff as (_ & Hrows & _). rewrite IH; rewrite ?Hrows; try done.
      all: f_equal; lia.
    + destruct Heff as (_ & Hrows & _). rewrite IH; rewrite ?Hrows; try done.
      all: f_equal; lia.
    + destruct Heff as (_ & Hrows & _). rewrite IH; rewrite ?Hrows; try done.
      all: f_equal; lia.
Qed.

Lemma VertexCount_balance (s0 s : Store) (cs : list call) :
  SetupTables s0 = (s, None) ->
  adds_distinct s cs ->
  VertexCount (do_calls s cs) =
    (successful_AddVertex s cs - effective_RemoveVertex s cs, None).
Proof.
  intros Hsetup Hdist. destruct (SetupTables_ready _ _ Hsetup) as (Hr & Hv & _).
  rewrite VertexCount_from; try done.
  - rewrite Hv. simpl. f_equal.
  - rewrite Hv. constructor.
  - rewrite Hv. constructor.
Qed.

End Histories.

(** ** The claims about histories of calls *)

(** C5: on a store that has been set up, whatever calls were made, every
    row of the edges table has a [source_hash] that is not NULL, so
    [count(source_hash)] counts every row: [EdgeCount] returns the number of
    rows of the edges table.  In the scenario of the tests it returns 0
    with two vertices and no edge, 4 after four edges, 3 after one is
    removed, on SQLite as on MySQL. *)
Theorem EdgeCount_counts_rows :
  (forall (E : Engine) (K T : Type) (HK : SQLKey K) (HZ : Zero T) (HT : JSON T)
          (HA : AttributesJSON) (s0 s : Store) (cs : list (call (K := K) (T := T))),
      SetupTables s0 = (s, None) ->
      Forall (fun r => is_Some (r !! "source_hash")) (edge_rows (do_calls s cs)) /\
      EdgeCount (do_calls s cs) = (Z.of_nat (length (edge_rows (do_calls s cs))), None)) /\
  TestEdgeCount sqlite /\
  TestEdgeCount mysql.
Proof.
  split; [|split].
  - intros. by eapply EdgeCount_rows.
  - vm_compute. done.
  - vm_compute. done.
Qed.

(** The comment in [EdgeCount]: after the four edges of the scenario,
    [count(id)] is 0 on SQLite, where [id] is NULL in every row, and 4 on
    MySQL. *)
Lemma count_id_depends_on_engine :
  let four_edges (E : Engine) :=
    do_calls (T := Z) (fresh_store E)
      [CallAddEdge 1 2 (plain_edge 1 2); CallAddEdge 2 1 (plain_edge 2 1);
       CallAddEdge 1 1 (plain_edge 1 1); CallAddEdge 2 2 (plain_edge 2 2)] in
  db_QueryRow (db (four_edges sqlite)) (Select [Count "id"] "edges" []) = Ok [Some (SInt 0)] /\
  db_QueryRow (db (four_edges mysql)) (Select [Count "id"] "edges" []) = Ok [Some (SInt 4)].
Proof. vm_compute. done. Qed.

(** C6, as amended: on a store that has been set up, for every sequence of
    calls in which no [AddVertex] is for a key that has a row, [VertexCount]
    is the number of [AddVertex] calls that returned no error minus the
    number of [RemoveVertex] calls whose key had a row.  In the scenario of
    the tests it returns 4 after vertices 1 to 4 are added and 3 after
    vertex 3 is removed, and [Vertex 3] then fails with the empty query
    result. *)
Theorem VertexCount_adds_minus_removes :
  (forall (E : Engine) (K T : Type) (HK : SQLKey K) (HZ : Zero T) (HT : JSON T)
          (HA : AttributesJSON) (s0 s : Store) (cs : list (call (K := K) (T := T))),
      SetupTables s0 = (s, None) ->
      adds_distinct s cs ->
      VertexCount (do_calls s cs) =
        (successful_AddVertex s cs - effective_RemoveVertex s cs, None)) /\
  TestRemoveVertex sqlite /\
  TestRemoveVertex mysql.
Proof.
  split; [|split].
  - intros. by eapply VertexCount_balance.
  - vm_compute. done.
  - vm_compute. done.
Qed.

(** C6, as stated, fails: [RemoveVertex] of a key that has no row returns
    no error and removes nothing, so it is a successful call that the count
    does not see. *)
Lemma VertexCount_successful_removes_counterexample :
  let s := fresh_store sqlite in
  let cs : list (call (K := Z) (T := Z)) := [CallRemoveVertex 3] in
  (do_call (H := sqlite) s (CallRemoveVertex (T := Z) 3)).2 = None /\
  NoDup (vertex_keys cs) /\
  VertexCount (do_calls (H := sqlite) s cs) = (0, None) /\
  successful_AddVertex (H := sqlite) s cs - successful_RemoveVertex (H := sqlite) s cs = -1 /\
  VertexCount (do_calls (H := sqlite) s cs) <>
    (successful_AddVertex (H := sqlite) s cs - successful_RemoveVertex (H := sqlite) s cs, None).
Proof.
  vm_compute. repeat split; [apply NoDup_singleton|discriminate].
Qed.

(** ** The claims at the store of the tests *)



Lemma Vertex_not_found_or_decode_error_witness :
  exists err,
    (Vertex (T := Z) (fresh_store sqlite) 3).2 = Some err /\
    err = Errorf "failed to query vertex" ErrNoRows /\
    errors_Is err ErrNoRows = true.
Proof.
  apply (Vertex_not_found_or_decode_error (T := Z) (fresh_store sqlite) 3).
  - reflexivity.
  - constructor.
Defined.


Lemma EdgeCount_counts_rows_witness :
  EdgeCount (do_calls (H := sqlite) (T := Z) (fresh_store sqlite)
               [CallAddEdge 1 2 (plain_edge 1 2); CallAddEdge 1 2 (plain_edge 1 2)]) =
    (2, None).
Proof.
  apply (proj1 EdgeCount_counts_rows sqlite Z Z _ _ _ _ (New ∅ DefaultConfig)
           (fresh_store sqlite)
           [CallAddEdge 1 2 (plain_edge 1 2); CallAddEdge 1 2 (plain_edge 1 2)]).
  reflexivity.
Defined.

Lemma VertexCount_adds_minus_removes_witness :
  VertexCount (do_calls (H := sqlite) (T := Z) (fresh_store sqlite)
                 [CallAddVertex 1 1 zero; CallRemoveVertex 2; CallRemoveVertex 1;
                  CallAddVertex 1 1 zero]) =
    (1, None).
Proof.
  assert (adds_distinct (H := sqlite) (T := Z) (fresh_store sqlite)
            [CallAddVertex 1 1 zero; CallRemoveVertex 2; CallRemoveVertex 1;
             CallAddVertex 1 1 zero]) as Hdistinct.
  { vm_compute. repeat split; constructor. }
  exact (proj1 VertexCount_adds_minus_removes sqlite Z Z _ _ _ _ (New ∅ DefaultConfig)
           (fresh_store sqlite)
           [CallAddVertex 1 1 zero; CallRemoveVertex 2; CallRemoveVertex 1;
            CallAddVertex 1 1 zero] eq_refl Hdistinct).
Defined.

Lemma Remove_absent_witness :
  RemoveVertex (H := sqlite) (fresh_store sqlite) (3 : Z) = (fresh_store sqlite, None) /\
  RemoveEdge (H := sqlite) (fresh_store sqlite) (2 : Z) 2 = (fresh_store sqlite, None).
Proof.
  destruct (Remove_absent (H := sqlite) (K := Z) (fresh_store sqlite)) as [Hv He].
  split.
  - apply Hv; [reflexivity|constructor].
  - apply He; [reflexivity|constructor].
Defined.



(** * More of the store: schema, writers, readers *)

(** ** A failed statement *)

(** The engine runs a statement or refuses it: a statement that fails has
    changed nothing. *)
Lemma db_Exec_error `{Engine} (d : database) (st : stmt) (e : error) :
  (db_Exec d st).2 = Some e -> (db_Exec d st).1 = d.
Proof.
  destruct st as [name cols|name|name cols vals|name where_|name sets where_]; simpl;
    destruct (d !! name) as [t|]; try done.
  - case_bool_decide; [|done]. by destruct (check_columns _ _).
  - by destruct (check_columns _ _).
  - by destruct (check_columns _ _).
Qed.

Section Schema.
Context `{Engine}.


(** X2: [DestroyTables] undoes [SetupTables]: after a successful
    [SetupTables], [DestroyTables] succeeds and the store is the one
    [SetupTables] was called on. *)
Theorem SetupTables_DestroyTables_roundtrip (s0 s : Store) :
  SetupTables s0 = (s, None) -> DestroyTables s = (s0, None).
Proof.
  unfold SetupTables. simpl.
  destruct (db s0 !! VerticesTable (config s0)) as [t|] eqn:Hv; [done|].
  destruct (_ !! EdgesTable (config s0)) as [t|] eqn:He; [done|].
  intros [= <-].
  assert (VerticesTable (config s0) <> EdgesTable (config s0)) as Hn.
  { intros Heq. rewrite <- Heq in He. by rewrite lookup_insert_eq in He. }
  rewrite lookup_insert_ne in He by done.
  unfold DestroyTables. simpl.
  rewrite lookup_insert_eq, delete_insert_eq.
  rewrite delete_id by by rewrite lookup_insert_ne.
  rewrite lookup_insert_eq, delete_insert_eq, delete_id by done.
  by destruct s0.
Qed.

(** X3: [DestroyTables] succeeds exactly on a database that has both
    configured tables, under two different names; both tables are then gone
    and every other table is as it was. *)
Theorem DestroyTables_succeeds_iff (s : Store) :
  ((DestroyTables s).2 = None <->
   is_Some (db s !! EdgesTable (config s)) /\
   is_Some (db s !! VerticesTable (config s)) /\
   VerticesTable (config s) <> EdgesTable (config s)) /\
  ((DestroyTables s).2 = None ->
   config (DestroyTables s).1 = config s /\
   db (DestroyTables s).1 !! VerticesTable (config s) = None /\
   db (DestroyTables s).1 !! EdgesTable (config s) = None /\
   forall name,
     name <> VerticesTable (config s) -> name <> EdgesTable (config s) ->
     db (DestroyTables s).1 !! name = db s !! name).
Proof.
  unfold DestroyTables. simpl.
  destruct (db s !! EdgesTable (config s)) as [t|] eqn:He; simpl.
  2: { split; [|done]. split; [done|]. by intros [[? ?] _]. }
  destruct (decide (VerticesTable (config s) = EdgesTable (config s))) as [Heq|Hne].
  { rewrite Heq, lookup_delete_eq. simpl. split; [|done]. split; [done|].
    by intros (_ & _ & ?). }
  rewrite lookup_delete_ne by done.
  destruct (db s !! VerticesTable (config s)) as [t'|] eqn:Hv; simpl.
  2: { split; [|done]. split; [done|]. by intros (_ & [? ?] & _). }
  split; [done|]. intros _. split; [done|].
  split; [by rewrite lookup_delete_eq|].
  split; [by rewrite lookup_delete_ne, lookup_delete_eq|].
  intros name Hnv Hne'. by rewrite !lookup_delete_ne.
Qed.

End Schema.

(** ** Readers look at the rows of their table only *)

Section Readers.
Context `{Engine}.
Context {K T : Type} `{SQLKey K} `{Zero T} `{JSON T} `{AttributesJSON}.

Lemma Vertex_rows (s s' : Store) (hash : K) :
  vertices_ready s -> vertices_ready s' ->
  filter (row_of_vertex hash) (vertex_rows s') = filter (row_of_vertex hash) (vertex_rows s) ->
  Vertex (T := T) s' hash = Vertex s hash.
Proof.
  intros Hr Hr' Hrows. unfold Vertex. rewrite !Vertex_query by done. by rewrite Hrows.
Qed.

Lemma Edge_rows (s s' : Store) (source target : K) :
  edges_ready s -> edges_ready s' ->
  filter (row_of_edge source target) (edge_rows s') =
    filter (row_of_edge source target) (edge_rows s) ->
  Edge s' source target = Edge s source target.
Proof.
  intros Hr Hr' Hrows. unfold Edge. rewrite !Edge_query by done. by rewrite Hrows.
Qed.

Lemma ListVertices_query (s : Store) :
  vertices_ready s ->
  db_Query (db s) (Select [Col "hash"] (VerticesTable (config s)) []) =
  Ok (map (fun r : row => [r !! "hash"]) (vertex_rows s)).
Proof.
  intros Hr. apply has_table_rows in Hr. fold (vertex_rows s) in Hr.
  erewrite db_Query_columns; [|exact Hr|done|done]. simpl.
  by rewrite filter_matches_nil.
Qed.

Lemma ListVertices_rows_eq (s s' : Store) :
  vertices_ready s -> vertices_ready s' ->
  vertex_rows s' = vertex_rows s ->
  ListVertices (K := K) s' = ListVertices s.
Proof.
  intros Hr Hr' Hrows. unfold ListVertices. rewrite !ListVertices_query by done.
  by rewrite Hrows.
Qed.

Lemma ListEdges_rows_eq (s s' : Store) :
  edges_ready s -> edges_ready s' ->
  edge_rows s' = edge_rows s ->
  ListEdges (K := K) s' = ListEdges s.
Proof.
  intros Hr Hr' Hrows. unfold ListEdges. rewrite !ListEdges_query by done.
  by rewrite Hrows.
Qed.

Lemma VertexCount_rows_eq (s s' : Store) :
  vertices_ready s -> vertices_ready s' ->
  vertex_rows s' = vertex_rows s ->
  VertexCount s' = VertexCount s.
Proof. intros Hr Hr' Hrows. rewrite !VertexCount_ready by done. by rewrite Hrows. Qed.


(** ** Writers *)

(** X4: a call of [AddVertex], [RemoveVertex], [AddEdge], [RemoveEdge] or
    [UpdateEdge] that returns an error has not changed the store, whatever
    state the database is in. *)
Theorem failed_call_changes_nothing (s : Store) (c : call (K := K) (T := T)) (err : error) :
  (do_call s c).2 = Some err -> (do_call s c).1 = s.
Proof.
  destruct c as [hash value properties|hash|source target edge
                 |source target|source target edge]; simpl;
    [unfold AddVertex|unfold RemoveVertex|unfold AddEdge|unfold RemoveEdge|unfold UpdateEdge];
    repeat (destruct (json_Marshal _); [|done]);
    destruct (db_Exec _ _) as [d e] eqn:Hx; simpl; intros ->;
    pose proof (db_Exec_error _ _ err (f_equal snd Hx)) as Hd;
    rewrite Hx in Hd; simpl in Hd; subst d; apply with_db_same.
Qed.

End Readers.

(** ** What the readers return when they fail *)

Section Failures.
Context `{Engine}.
Context {K T : Type} `{SQLKey K} `{Zero T} `{JSON T} `{AttributesJSON}.

Lemma db_Query_no_table (d : database) (q : query) :
  d !! sel_from q = None -> db_Query d q = Err (no_such_table (sel_from q)).
Proof. intros Hd. unfold db_Query. by rewrite Hd. Qed.

Lemma check_columns_error (t : table) (cols : list string) (e : error) :
  check_columns t cols = Some e -> exists msg, e = DriverError msg.
Proof.
  induction cols as [|c cols IH]; simpl; [done|].
  destruct (declared t c); [done|]. intros [= <-]. by eexists.
Qed.

(** A query of columns reports [sql.ErrNoRows] only when its table is there
    and no row is selected. *)
Lemma db_QueryRow_no_rows (d : database) (q : query) :
  existsb is_count (sel_exprs q) = false ->
  db_QueryRow d q = Err ErrNoRows ->
  exists t, d !! sel_from q = Some t /\
            filter (fun r => matches (sel_where q) r = true) (rows t) = [].
Proof.
  intros Hc. unfold db_QueryRow, db_Query. rewrite Hc.
  destruct (d !! sel_from q) as [t|]; [|done].
  destruct (check_columns _ _) as [e|] eqn:He.
  { apply check_columns_error in He as [msg ->]. done. }
  destruct (filter _ (rows t)) as [|r rs] eqn:Hf; [|done].
  intros _. by exists t.
Qed.

(** X5: on a database without the edges table, [Edge] fails with the
    engine's error wrapped as a failed scan, which is not [ErrEdgeNotFound]
    and does not wrap it; [EdgeCount] returns 0 with the engine's error and
    [ListEdges] the nil slice with the error wrapped.  The same holds of
    [Vertex], [VertexCount] and [ListVertices] without the vertices table. *)
Theorem readers_without_table (s : Store) :
  (db s !! EdgesTable (config s) = None ->
   let cause := no_such_table (EdgesTable (config s)) in
   (forall source target : K,
       Edge s source target =
         (graph.MakeEdge source target zero, Some (Errorf "failed to scan row" cause)) /\
       errors_Is (Errorf "failed to scan row" cause) ErrEdgeNotFound = false) /\
   EdgeCount s = (0, Some cause) /\
   ListEdges (K := K) s = ([], Some (Errorf "failed to query edges" cause))) /\
  (db s !! VerticesTable (config s) = None ->
   let cause := no_such_table (VerticesTable (config s)) in
   (forall hash : K,
       Vertex (T := T) s hash = (zero, zero, Some (Errorf "failed to query vertex" cause))) /\
   VertexCount s = (0, Some cause) /\
   ListVertices (K := K) s = ([], Some (Errorf "failed to query vertices" cause))).
Proof.
  split; intros Hd; simpl.
  - split; [|split].
    + intros source target. unfold Edge, db_QueryRow.
      rewrite db_Query_no_table by done. simpl. done.
    + unfold EdgeCount, db_QueryRow. by rewrite db_Query_no_table.
    + unfold ListEdges. by rewrite db_Query_no_table.
  - split; [|split].
    + intros hash. unfold Vertex, db_QueryRow. by rewrite db_Query_no_table.
    + unfold VertexCount, db_QueryRow. by rewrite db_Query_no_table.
    + unfold ListVertices. by rewrite db_Query_no_table.
Qed.

(** X6: the errors of [Edge], on any database: the sentinel
    [ErrEdgeNotFound], a failed scan that wraps an error other than
    [sql.ErrNoRows], or a failed decoding of the attributes that wraps the
    error of [encoding/json].  With the first two the edge returned has the
    zero [Properties]. *)
Theorem Edge_errors (s : Store) (source target : K) (err : error) :
  (Edge s source target).2 = Some err ->
  (err = ErrEdgeNotFound /\
   (Edge s source target).1 = graph.MakeEdge source target zero) \/
  (exists cause,
      err = Errorf "failed to scan row" cause /\
      errors_Is cause ErrNoRows = false /\
      (Edge s source target).1 = graph.MakeEdge source target zero) \/
  (exists msg, err = Errorf "failed to unmarshal attributes" (JSONError msg)).
Proof.
  unfold Edge.
  destruct (db_QueryRow _ _) as [r|e].
  - destruct (scan_int _) as [weight|e].
    + unfold json_Unmarshal. destruct (unmarshal _) as [attributes [msg|]]; simpl; [|done].
      intros [= <-]. right. right. by exists msg.
    + destruct (errors_Is e ErrNoRows) eqn:He; simpl; intros [= <-].
      * by left.
      * right. left. by exists e.
  - destruct (errors_Is e ErrNoRows) eqn:He; simpl; intros [= <-].
    + by left.
    + right. left. by exists e.
Qed.

(** X7: the errors of [Vertex], on any database: a failed query, with which
    the value and the properties returned are the zero ones, or a failed
    decoding of the value or of the attributes that wraps the error of
    [encoding/json].  A failed query wraps [sql.ErrNoRows] only when the
    table is there and no row is the vertex. *)
Theorem Vertex_errors (s : Store) (hash : K) (err : error) :
  (Vertex (T := T) s hash).2 = Some err ->
  (exists cause,
      err = Errorf "failed to query vertex" cause /\
      (Vertex (T := T) s hash).1 = (zero, zero) /\
      (cause = ErrNoRows ->
       is_Some (db s !! VerticesTable (config s)) /\
       Forall (fun r => ~ row_of_vertex hash r) (vertex_rows s))) \/
  (exists msg, err = Errorf "failed to unmarshal value" (JSONError msg)) \/
  (exists msg, err = Errorf "failed to unmarshal attributes" (JSONError msg)).
Proof.
  unfold Vertex.
  destruct (db_QueryRow _ _) as [r|e] eqn:Hq.
  - destruct (scan_int _) as [weight|e] eqn:Hs.
    + unfold json_Unmarshal. destruct (unmarshal _) as [value [msg|]]; simpl.
      * intros [= <-]. right. left. by exists msg.
      * destruct (unmarshal_attributes _) as [attributes [msg|]]; simpl; [|done].
        intros [= <-]. right. right. by exists msg.
    + simpl. intros [= <-]. left. exists e. split; [done|]. split; [done|].
      intros ->. by apply scan_int_error in Hs as [msg ?].
  - simpl. intros [= <-]. left. exists e. split; [done|]. split; [done|].
    intros ->. apply db_QueryRow_no_rows in Hq as (t & Ht & Hnone); [|done].
    simpl in Ht. unfold vertex_rows, table_rows. rewrite Ht. split; [done|].
    apply (filter_none (row_of_vertex hash)). simpl in Hnone. rewrite <- Hnone.
    symmetry. apply list_filter_iff, matches_vertex.
Qed.

End Failures.

(** ** How the calls compose *)



Section Compositions.
Context `{Engine}.
Context {K T : Type} `{SQLKey K} `{Zero T} `{JSON T} `{AttributesJSON}.

(** Rows of two different vertices are different rows. *)
Lemma row_of_vertex_inj (a b : K) (r : row) :
  row_of_vertex a r -> row_of_vertex b r -> a = b.
Proof.
  unfold row_of_vertex. intros Ha Hb. rewrite Ha in Hb.
  apply key_value_inj. congruence.
Qed.


(** X9: [RemoveEdge source target] removes every row of the pair and no
    other: afterwards [Edge source target] returns [ErrEdgeNotFound], and
    [Edge] on any other pair, the reversed one included, returns what it
    returned before. *)
Theorem RemoveEdge_Edge (s : Store) (source target : K) :
  edges_ready s ->
  (RemoveEdge s source target).2 = None /\
  Edge (RemoveEdge s source target).1 source target =
    (graph.MakeEdge source target zero, Some ErrEdgeNotFound) /\
  (forall a b : K,
      ~ (a = source /\ b = target) ->
      Edge (RemoveEdge s source target).1 a b = Edge s a b).
Proof.
  intros Hr. rewrite RemoveEdge_ready by done. simpl. split; [done|].
  set (s' := with_db s _).
  assert (edges_ready s') as Hr' by apply has_table_insert.
  assert (edge_rows s' = filter (fun r => ~ row_of_edge source target r) (edge_rows s))
    as Hrows by apply table_rows_insert.
  split.
  - unfold Edge. rewrite Edge_query by done. rewrite Hrows.
    rewrite list_filter_filter.
    rewrite (proj2 (filter_none _ _)); [done|].
    apply Forall_forall. intros r _ [? ?]. done.
  - intros a b Hne. apply Edge_rows; [done..|]. rewrite Hrows.
    apply list_filter_filter_l. intros r Hab Hst. apply Hne.
    by eapply row_of_edge_inj.
Qed.





(** X13: a successful [AddVertex hash] adds one vertex to the count and
    leaves the other vertices as they were. *)
Theorem AddVertex_elsewhere (s : Store) (hash : K) (value : T)
    (properties : graph.VertexProperties.t) :
  vertices_ready s ->
  (AddVertex s hash value properties).2 = None ->
  VertexCount (AddVertex s hash value properties).1 = ((VertexCount s).1 + 1, None) /\
  (forall k : K,
      k <> hash -> Vertex (T := T) (AddVertex s hash value properties).1 k = Vertex s k).
Proof.
  intros Hr. destruct (marshal value) as [valueBytes|msg] eqn:Hm.
  2: { unfold AddVertex, json_Marshal. rewrite Hm. done. }
  destruct (AddVertex_ready s hash value properties valueBytes Hr Hm)
    as (r & -> & Hhash & _).
  intros _. simpl. set (s' := with_db s _).
  assert (vertices_ready s') as Hr' by apply has_table_insert.
  assert (vertex_rows s' = vertex_rows s ++ [r]) as Hrows by apply table_rows_insert.
  split.
  - rewrite !VertexCount_ready by done. rewrite Hrows, filter_app, length_app.
    rewrite filter_cons_True by by rewrite Hhash. simpl. f_equal. lia.
  - intros k Hne. apply Vertex_rows; [done..|]. rewrite Hrows, filter_app.
    rewrite filter_cons_False, filter_nil, app_nil_r; [done|].
    intros Hk. apply Hne. by eapply row_of_vertex_inj.
Qed.

End Compositions.

(** ** Listing *)

Section Listing.
Context `{Engine}.
Context {K T : Type} `{SQLKey K} `{Zero T} `{JSON T} `{AttributesJSON}.

Lemma ListVertices_rows_ok (rs : list row) (acc ks : list K) :
  Forall2 (fun r k => key_scan (r !! "hash") = Ok k) rs ks ->
  ListVertices_rows (map (fun r : row => [r !! "hash"]) rs) acc = (acc ++ ks, None).
Proof.
  intros Hks. revert acc. induction Hks as [|r k rs ks Hk _ IH]; intros acc; simpl.
  - by rewrite app_nil_r.
  - unfold cell_at. simpl. rewrite Hk, IH. by rewrite <- app_assoc.
Qed.

Lemma ListVertices_rows_abort (rs : list row) (acc : list K) (r : row) (e : error) :
  r ∈ rs ->
  key_scan (r !! "hash") = Err e ->
  exists err,
    ListVertices_rows (map (fun r : row => [r !! "hash"]) rs) acc =
      ([], Some (Errorf "failed to scan row" err)).
Proof.
  intros Hin He. revert acc. induction rs as [|r' rs IH]; intros acc.
  - by apply elem_of_nil in Hin.
  - simpl. unfold cell_at. simpl.
    destruct (key_scan (r' !! "hash")) as [k|e'] eqn:Hk; [|by eexists].
    apply elem_of_cons in Hin as [->|Hin]; [by rewrite Hk in He|].
    by apply IH.
Qed.

(** X14: [ListVertices] returns the keys scanned from the [hash] column, one
    per row and in the order of the rows, so the nil slice and no error on
    an empty table; when the [hash] of any one row does not scan into the
    key type, it returns the nil slice and the scan error wrapped, never the
    keys read so far. *)
Theorem ListVertices_all_or_nothing (s : Store) :
  vertices_ready s ->
  (forall ks : list K,
      Forall2 (fun r k => key_scan (r !! "hash") = Ok k) (vertex_rows s) ks ->
      ListVertices s = (ks, None)) /\
  (forall (r : row) (e : error),
      r ∈ vertex_rows s ->
      key_scan (K := K) (r !! "hash") = Err e ->
      exists err, ListVertices (K := K) s = ([], Some (Errorf "failed to scan row" err))).
Proof.
  intros Hr. unfold ListVertices. rewrite ListVertices_query by done. split.
  - intros ks Hks. by rewrite (ListVertices_rows_ok _ [] ks).
  - intros r e Hin He. by eapply ListVertices_rows_abort.
Qed.

(** Every vertex row that the calls leave is the row of some key. *)
Lemma do_calls_vertex_rows (cs : list call) (s : Store) :
  ready s ->
  Forall (fun r => exists k : K, row_of_vertex k r) (vertex_rows s) ->
  Forall (fun r => exists k : K, row_of_vertex k r) (vertex_rows (do_calls s cs)).
Proof.
  revert s. induction cs as [|c cs IH]; intros s Hr Hs; simpl; [done|].
  destruct (do_call_effect s c Hr) as [Hr' Heff].
  apply IH; [done|]. clear IH.
  destruct c as [hash value properties|hash|a b edge|a b|a b edge];
    unfold call_effect in Heff.
  - destruct Heff as [_ Heff]. destruct (do_call _ _).2.
    + by rewrite Heff.
    + destruct Heff as (r & -> & Hrow).
      rewrite Forall_app, Forall_singleton. split; [done|]. by exists hash.
  - destruct Heff as (_ & _ & ->). by apply Forall_kept.
  - destruct Heff as (_ & -> & _). done.
  - destruct Heff as (_ & -> & _). done.
  - destruct Heff as (_ & -> & _). done.
Qed.

(** X15: on a store that has been set up and written through the calls,
    for a key type that scans back what it passes to the driver,
    [ListVertices] does not fail: it returns the key of every row, in the
    order of the rows, and as many keys as [VertexCount] counts. *)
Theorem ListVertices_VertexCount (s0 s : Store) (cs : list (call (K := K) (T := T))) :
  SetupTables s0 = (s, None) ->
  (forall k : K, key_scan (Some (key_value k)) = Ok k) ->
  exists ks : list K,
    ListVertices (do_calls s cs) = (ks, None) /\
    Forall2 (fun r k => row_of_vertex k r) (vertex_rows (do_calls s cs)) ks /\
    VertexCount (do_calls s cs) = (Z.of_nat (length ks), None).
Proof.
  intros Hsetup Hscan. destruct (SetupTables_ready _ _ Hsetup) as (Hr & Hv & _).
  pose proof (do_calls_ready s cs Hr) as Hr'.
  assert (Forall (fun r => exists k : K, row_of_vertex k r) (vertex_rows (do_calls s cs)))
    as Hrows.
  { apply do_calls_vertex_rows; [done|]. by rewrite Hv. }
  assert (exists ks : list K,
             Forall2 (fun r k => row_of_vertex k r) (vertex_rows (do_calls s cs)) ks)
    as [ks Hks].
  { induction Hrows as [|r rs [k Hk] _ [ks IH]]; [by exists []|].
    exists (k :: ks). by constructor. }
  exists ks. split; [|split; [done|]].
  - unfold ListVertices. rewrite ListVertices_query by apply Hr'.
    rewrite (ListVertices_rows_ok _ [] ks); [done|].
    eapply Forall2_impl; [exact Hks|]. intros r k Hk. simpl.
    unfold row_of_vertex in Hk. by rewrite Hk.
  - rewrite VertexCount_ready by apply Hr'.
    rewrite filter_all.
    + by rewrite (Forall2_length _ _ _ Hks).
    + eapply Forall_impl; [exact Hrows|]. intros r [k Hk]. simpl.
      unfold row_of_vertex in Hk. by rewrite Hk.
Qed.

End Listing.

Section ListingEdges.
Context `{Engine}.
Context {K T : Type} `{SQLKey K} `{Zero T} `{JSON T} `{AttributesJSON}.

Lemma ListEdges_rows_held (rs : list row) (acc es : list (graph.Edge K)) :
  (forall k : K, key_scan (Some (key_value k)) = Ok k) ->
  Forall2 row_holds_edge rs es ->
  ListEdges_rows (map edge_cells rs) acc = (acc ++ es, None).
Proof.
  intros Hscan Hes. revert acc.
  induction Hes as [|r e rs es ([Hs Ht] & Hw & Hd & Ha) _ IH]; intros acc; simpl.
  - by rewrite app_nil_r.
  - unfold cell_at. simpl. rewrite Hs, Ht, !Hscan, Hw. simpl.
    unfold json_Unmarshal. simpl. rewrite Ha. simpl.
    rewrite IH, <- app_assoc. unfold scan_any. rewrite Hd.
    by destruct e as [? ? []].
Qed.

(** Every edge row that the calls leave holds an edge. *)
Lemma do_calls_edge_rows (cs : list call) (s : Store) :
  ready s ->
  edge_attributes_read_back (K := K) (T := T) cs ->
  Forall (fun r => exists e : graph.Edge K, row_holds_edge r e) (edge_rows s) ->
  Forall (fun r => exists e : graph.Edge K, row_holds_edge r e) (edge_rows (do_calls s cs)).
Proof.
  revert s. induction cs as [|c cs IH]; intros s Hr Hcs Hs; simpl; [done|].
  apply Forall_cons in Hcs as [Hc Hcs].
  destruct (do_call_effect s c Hr) as [Hr' Heff].
  apply IH; [done..|]. clear IH Hr' Hcs.
  destruct c as [hash value properties|hash|a b edge|a b|a b edge];
    unfold call_effect in Heff.
  - destruct Heff as [-> _]. done.
  - destruct Heff as (_ & -> & _). done.
  - clear Heff. simpl.
    destruct (AddEdge_ready s a b edge (ready_edges _ Hr))
      as (r & -> & Hsrc & Htgt & Hw & Ha & Hd).
    unfold edge_rows at 1. simpl. rewrite table_rows_insert. simpl.
    fold (edge_rows s). rewrite Forall_app, Forall_singleton. split; [done|].
    exists (graph.MakeEdge a b (graph.Properties edge)).
    unfold row_holds_edge, row_of_edge. simpl. rewrite Ha. simpl. done.
  - destruct Heff as (_ & _ & ->). by apply Forall_kept.
  - clear Heff. simpl. rewrite UpdateEdge_ready by apply Hr.
    unfold edge_rows at 1. simpl. rewrite table_rows_insert. simpl.
    fold (edge_rows s). apply Forall_fmap.
    eapply Forall_impl; [exact Hs|]. intros r [e He]. simpl.
    destruct (decide (row_of_edge a b r)) as [Hab|Hab]; [|by exists e].
    exists (graph.MakeEdge (graph.Source e) (graph.Target e) (graph.Properties edge)).
    destruct He as (Hst & _).
    match goal with
    | |- context [updated_row ?r ?w ?a ?d] =>
        destruct (updated_row_lookup r w a d) as (Hw' & Ha' & Hd');
        pose proof (updated_row_of_edge _ _ r w a d Hst) as Hst'
    end.
    unfold row_holds_edge. simpl. rewrite Hw', Ha', Hd'. simpl. done.
Qed.

(** X16: on a store that has been set up and written through the calls,
    for a key type that scans back what it passes to the driver and
    attribute maps that read back from their encoding, [ListEdges] does not
    fail: it returns, in the order of the rows, the edge that each row
    holds, and as many edges as [EdgeCount] counts. *)
Theorem ListEdges_EdgeCount (s0 s : Store) (cs : list (call (K := K) (T := T))) :
  SetupTables s0 = (s, None) ->
  (forall k : K, key_scan (Some (key_value k)) = Ok k) ->
  edge_attributes_read_back cs ->
  exists es : list (graph.Edge K),
    ListEdges (do_calls s cs) = (es, None) /\
    Forall2 row_holds_edge (edge_rows (do_calls s cs)) es /\
    EdgeCount (do_calls s cs) = (Z.of_nat (length es), None).
Proof.
  intros Hsetup Hscan Hcs. destruct (SetupTables_ready _ _ Hsetup) as (Hr & _ & He).
  pose proof (do_calls_ready s cs Hr) as Hr'.
  assert (Forall (fun r => exists e : graph.Edge K, row_holds_edge r e)
            (edge_rows (do_calls s cs))) as Hrows.
  { apply do_calls_edge_rows; [done..|]. by rewrite He. }
  assert (exists es : list (graph.Edge K),
             Forall2 row_holds_edge (edge_rows (do_calls s cs)) es) as [es Hes].
  { induction Hrows as [|r rs [e Hre] _ [es IH]]; [by exists []|].
    exists (e :: es). by constructor. }
  exists es. split; [|split; [done|]].
  - unfold ListEdges. rewrite ListEdges_query by apply Hr'.
    by rewrite (ListEdges_rows_held _ [] es).
  - rewrite EdgeCount_ready by apply Hr'.
    rewrite filter_all.
    + by rewrite (Forall2_length _ _ _ Hes).
    + eapply Forall_impl; [exact Hrows|]. intros r (e & [Hsrc _] & _). simpl.
      by rewrite Hsrc.
Qed.

(** X17: a store that has just been set up is empty: both listings return
    the nil slice and no error, both counts are 0, [Vertex] fails on every
    key with the empty query result and [Edge] on every pair with
    [ErrEdgeNotFound]. *)
Theorem SetupTables_empty (s0 s : Store) :
  SetupTables s0 = (s, None) ->
  ListVertices (K := K) s = ([], None) /\
  ListEdges (K := K) s = ([], None) /\
  VertexCount s = (0, None) /\
  EdgeCount s = (0, None) /\
  (forall hash : K,
      Vertex (T := T) s hash =
        (zero, zero, Some (Errorf "failed to query vertex" ErrNoRows))) /\
  (forall source target : K,
      Edge s source target = (graph.MakeEdge source target zero, Some ErrEdgeNotFound)).
Proof.
  intros Hsetup. destruct (SetupTables_ready _ _ Hsetup) as ([Hn Hrv Hre] & Hv & He).
  split; [|split; [|split; [|split; [|split]]]].
  - unfold ListVertices. rewrite ListVertices_query by done. by rewrite Hv.
  - unfold ListEdges. rewrite ListEdges_query by done. by rewrite He.
  - rewrite VertexCount_ready by done. by rewrite Hv.
  - rewrite EdgeCount_ready by done. by rewrite He.
  - intros hash. unfold Vertex. rewrite Vertex_query by done. by rewrite Hv.
  - intros source target. unfold Edge. rewrite Edge_query by done. by rewrite He.
Qed.

End ListingEdges.

(** ** The properties above at the store of the tests *)



Lemma SetupTables_DestroyTables_roundtrip_witness :
  DestroyTables (H := sqlite) (fresh_store sqlite) = (New ∅ DefaultConfig, None).
Proof.
  apply (SetupTables_DestroyTables_roundtrip (H := sqlite) (New ∅ DefaultConfig)).
  reflexivity.
Defined.

Lemma DestroyTables_succeeds_iff_witness :
  (DestroyTables (H := sqlite) (fresh_store sqlite)).2 = None.
Proof.
  apply (proj1 (DestroyTables_succeeds_iff (H := sqlite) (fresh_store sqlite))).
  split; [by eexists|]. split; [by eexists|discriminate].
Defined.

Lemma failed_call_changes_nothing_witness :
  (do_call (H := sqlite) (T := Z) (New ∅ DefaultConfig)
     (CallAddEdge 1 2 (plain_edge 1 2))).1 = New ∅ DefaultConfig.
Proof.
  apply (failed_call_changes_nothing (H := sqlite) (T := Z) (New ∅ DefaultConfig)
           (CallAddEdge 1 2 (plain_edge 1 2)) (no_such_table "edges")).
  reflexivity.
Defined.

Lemma readers_without_table_witness :
  EdgeCount (New ∅ DefaultConfig) = (0, Some (no_such_table "edges")) /\
  VertexCount (New ∅ DefaultConfig) = (0, Some (no_such_table "vertices")).
Proof.
  destruct (readers_without_table (K := Z) (T := Z) (New ∅ DefaultConfig))
    as [He Hv].
  split.
  - apply (He eq_refl).
  - apply (Hv eq_refl).
Defined.

Lemma Edge_errors_witness :
  (ErrEdgeNotFound = ErrEdgeNotFound /\
   (Edge (fresh_store sqlite) (1 : Z) 2).1 = graph.MakeEdge 1 2 zero) \/
  (exists cause,
      ErrEdgeNotFound = Errorf "failed to scan row" cause /\
      errors_Is cause ErrNoRows = false /\
      (Edge (fresh_store sqlite) (1 : Z) 2).1 = graph.MakeEdge 1 2 zero) \/
  (exists msg, ErrEdgeNotFound = Errorf "failed to unmarshal attributes" (JSONError msg)).
Proof.
  apply (Edge_errors (fresh_store sqlite) (1 : Z) 2 ErrEdgeNotFound).
  reflexivity.
Defined.

Lemma Vertex_errors_witness :
  (exists cause,
      Errorf "failed to query vertex" ErrNoRows = Errorf "failed to query vertex" cause /\
      (Vertex (T := Z) (fresh_store sqlite) (3 : Z)).1 = (zero, zero) /\
      (cause = ErrNoRows ->
       is_Some (db (fresh_store sqlite) !! VerticesTable (config (fresh_store sqlite))) /\
       Forall (fun r => ~ row_of_vertex (3 : Z) r) (vertex_rows (fresh_store sqlite)))) \/
  (exists msg,
      Errorf "failed to query vertex" ErrNoRows =
        Errorf "failed to unmarshal value" (JSONError msg)) \/
  (exists msg,
      Errorf "failed to query vertex" ErrNoRows =
        Errorf "failed to unmarshal attributes" (JSONError msg)).
Proof.
  apply (Vertex_errors (T := Z) (fresh_store sqlite) (3 : Z)
           (Errorf "failed to query vertex" ErrNoRows)).
  reflexivity.
Defined.


Lemma RemoveEdge_Edge_witness :
  let s := do_calls (H := sqlite) (T := Z) (fresh_store sqlite)
             [CallAddEdge 1 2 (plain_edge 1 2); CallAddEdge 1 2 (plain_edge 1 2);
              CallAddEdge 2 1 (plain_edge 2 1)] in
  (RemoveEdge (H := sqlite) s 1 2).2 = None /\
  Edge (RemoveEdge (H := sqlite) s 1 2).1 1 2 =
    (graph.MakeEdge 1 2 zero, Some ErrEdgeNotFound) /\
  (forall a b : Z,
      ~ (a = 1 /\ b = 2) -> Edge (RemoveEdge (H := sqlite) s 1 2).1 a b = Edge s a b).
Proof.
  apply (RemoveEdge_Edge (H := sqlite)
           (do_calls (H := sqlite) (T := Z) (fresh_store sqlite)
              [CallAddEdge 1 2 (plain_edge 1 2); CallAddEdge 1 2 (plain_edge 1 2);
               CallAddEdge 2 1 (plain_edge 2 1)]) 1 2).
  reflexivity.
Defined.




Lemma AddVertex_elsewhere_witness :
  VertexCount (AddVertex (H := sqlite) (fresh_store sqlite) 1 7 zero).1 =
    ((VertexCount (fresh_store sqlite)).1 + 1, None).
Proof.
  exact (proj1 (AddVertex_elsewhere (H := sqlite) (fresh_store sqlite) 1 7 zero
                  eq_refl eq_refl)).
Defined.

Lemma ListVertices_all_or_nothing_witness :
  ListVertices (K := Z) (fresh_store sqlite) = ([], None).
Proof.
  apply (proj1 (ListVertices_all_or_nothing (K := Z) (fresh_store sqlite) eq_refl)).
  constructor.
Defined.

Lemma ListVertices_VertexCount_witness :
  let cs : list (call (K := Z) (T := Z)) :=
    [CallAddVertex 1 1 zero; CallAddVertex 2 2 zero; CallRemoveVertex 1] in
  exists ks : list Z,
    ListVertices (do_calls (H := sqlite) (fresh_store sqlite) cs) = (ks, None) /\
    Forall2 (fun r k => row_of_vertex k r)
            (vertex_rows (do_calls (H := sqlite) (fresh_store sqlite) cs)) ks /\
    VertexCount (do_calls (H := sqlite) (fresh_store sqlite) cs) =
      (Z.of_nat (length ks), None).
Proof.
  apply (ListVertices_VertexCount (H := sqlite) (New ∅ DefaultConfig) (fresh_store sqlite)).
  - reflexivity.
  - intros k. reflexivity.
Defined.

Lemma ListEdges_EdgeCount_witness :
  let cs : list (call (K := Z) (T := Z)) :=
    [CallAddEdge 1 2 (plain_edge 1 2); CallAddEdge 1 1 (plain_edge 1 1);
     CallUpdateEdge 1 1 (graph.MakeEdge 1 1 happy)] in
  exists es : list (graph.Edge Z),
    ListEdges (do_calls (H := sqlite) (fresh_store sqlite) cs) = (es, None) /\
    Forall2 row_holds_edge (edge_rows (do_calls (H := sqlite) (fresh_store sqlite) cs)) es /\
    EdgeCount (do_calls (H := sqlite) (fresh_store sqlite) cs) = (Z.of_nat (length es), None).
Proof.
  apply (ListEdges_EdgeCount (H := sqlite) (New ∅ DefaultConfig) (fresh_store sqlite)).
  - reflexivity.
  - intros k. reflexivity.
  - repeat constructor.
Defined.

Lemma SetupTables_empty_witness :
  ListVertices (K := Z) (fresh_store sqlite) = ([], None) /\
  ListEdges (K := Z) (fresh_store sqlite) = ([], None) /\
  VertexCount (fresh_store sqlite) = (0, None) /\
  EdgeCount (fresh_store sqlite) = (0, None) /\
  (forall hash : Z,
      Vertex (T := Z) (fresh_store sqlite) hash =
        (zero, zero, Some (Errorf "failed to query vertex" ErrNoRows))) /\
  (forall source target : Z,
      Edge (fresh_store sqlite) source target =
        (graph.MakeEdge source target zero, Some ErrEdgeNotFound)).
Proof.
  apply (SetupTables_empty (H := sqlite) (New ∅ DefaultConfig) (fresh_store sqlite)).
  reflexivity.
Defined.

